(** * EISpy level-0 preparation ([eispy/eis_prep.py]): model and properties

    The module corrects raw exposures of the EIS spectrograph.  Every stage
    takes channel records [(data, error, index)] whose two arrays are numpy
    objects mutated in place, so the model keeps the arrays in a store and
    the records hold references into it.  Calibration bitmaps are fetched
    from a remote archive through a process-wide memo table; the model
    threads the memo table and the list of requests sent so far. *)

From Stdlib Require Import ZArith Lia.
From stdpp Require Import base option list sorting gmap strings pretty.

Open Scope Z_scope.

(* ===================================================================== *)
(** * Part I: the program                                                 *)
(* ===================================================================== *)

(** ** Python results: a value or a raised exception *)

Inductive exn :=
  | KeyError (k : string)
  | IndexError
  | ValueError
  | ReferenceError.

Inductive res (A : Type) :=
  | Ok (a : A)
  | Raise (e : exn).
Arguments Ok {A} a.
Arguments Raise {A} e.

(** Computations over a state [S] that may raise. *)
Definition M (S A : Type) : Type := S → res (A * S).

Definition ret {S A} (a : A) : M S A := λ s, Ok (a, s).

Definition bind {S A B} (m : M S A) (k : A → M S B) : M S B :=
  λ s, match m s with
       | Ok (a, s') => k a s'
       | Raise e => Raise e
       end.

Definition raise {S A} (e : exn) : M S A := λ _, Raise e.

Definition lift {S A} (r : res A) : M S A :=
  λ s, match r with Ok a => Ok (a, s) | Raise e => Raise e end.

Definition get_state {S} : M S S := λ s, Ok (s, s).

Definition put_state {S} (s : S) : M S unit := λ _, Ok (tt, s).

Notation "'let*' x ':=' m 'in' k" := (bind m (λ x, k))
  (at level 10, x name, m at level 100, k at level 200).
Notation "m1 ';;' m2" := (bind m1 (λ _, m2))
  (at level 100, m2 at level 200, right associativity).

(** [for x in l: body(x)] *)
Fixpoint for_each {S A} (body : A → M S unit) (l : list A) : M S unit :=
  match l with
  | [] => ret tt
  | x :: l' => body x ;; for_each body l'
  end.

(** ** Three-dimensional arrays (exposure index, row, column)

    An array is the nested list of its entries, outermost axis first, so
    iterating over it yields its 2-D slices; its shape is read off the
    nesting. *)

Module Nd.

Abbreviation arr A := (list (list (list A))).
Abbreviation arr2 A := (list (list A)).

Definition shape {A} (a : arr A) : list (list nat) := map (map length) a.

Definition map3 {A B} (f : A → B) (a : arr A) : arr B := map (map (map f)) a.

Definition zip3 {A B C} (f : A → B → C) (a : arr A) (b : arr B) : arr C :=
  zip_with (zip_with (zip_with f)) a b.

(** [a[k, i, j]] *)
Definition get {A} (a : arr A) (p : nat * nat * nat) : option A :=
  let '(k, i, j) := p in
  match a !! k with
  | Some s => match s !! i with Some r => r !! j | None => None end
  | None => None
  end.

(** [a[mask] = v] on a copy: boolean-mask assignment of a scalar; numpy
    rejects a mask whose shape differs from the array's. *)
Definition set_where {A} (mask : arr bool) (v : A) (a : arr A) : res (arr A) :=
  if decide (shape mask = shape a)
  then Ok (zip3 (λ (b : bool) x, if b then v else x) mask a)
  else Raise IndexError.

(** [a.flatten()] *)
Definition flatten {A} (a : arr A) : list A := concat (concat a).

(** [a[:, :, p0:p1]] for non-negative bounds *)
Definition slice_cols {A} (p0 p1 : nat) (a : arr A) : arr A :=
  map (map (λ r, take (p1 - p0) (drop p0 r))) a.

End Nd.

(** ** The store of arrays and channel records *)

Abbreviation loc := positive.
Abbreviation heap := (gmap positive (list (list (list Z)))).

(** The 3-tuple [(data, error, index)]: two array references and the
    window number. *)
Record channel := Channel { ch_data : loc; ch_err : loc; ch_index : Z }.

Definition deref (l : loc) : M heap (Nd.arr Z) :=
  λ h, match h !! l with
       | Some a => Ok (a, h)
       | None => Raise ReferenceError
       end.

Definition store (l : loc) (a : Nd.arr Z) : M heap unit :=
  λ h, Ok (tt, <[l := a]> h).

(** [ref[mask] = v]: in-place masked assignment on the array [ref] points to. *)
Definition assign_where (l : loc) (mask : Nd.arr bool) (v : Z) : M heap unit :=
  let* a := deref l in
  let* a' := lift (Nd.set_where mask v a) in
  store l a'.

Definition __missing__ : Z := -100.

(** ** §4.1 [_remove_zeros_saturated] *)

Definition _remove_zeros_saturated (data_and_errors : list channel) : M heap unit :=
  for_each (λ rec,
    let data := ch_data rec in
    let err := ch_err rec in
    let* d := deref data in
    let zeros := Nd.map3 (λ x, x <=? 0) d in
    let saturated := Nd.map3 (λ x, x >=? 16383) d in
    let* zeros := lift (Nd.set_where saturated true zeros) in
    assign_where data zeros 0 ;;
    assign_where err zeros __missing__) data_and_errors.

(** What the stage does to one record's arrays, as pure functions. *)
Definition invalid (x : Z) : bool := if x >=? 16383 then true else x <=? 0.

Definition zs_data (d : Nd.arr Z) : Nd.arr Z :=
  Nd.map3 (λ x, if invalid x then 0 else x) d.

Definition zs_err (d e : Nd.arr Z) : Nd.arr Z :=
  Nd.zip3 (λ (b : bool) x, if b then __missing__ else x) (Nd.map3 invalid d) e.

(** The references a list of records holds, and the stage-boundary
    invariant [data.shape == error.shape] for a record in a store. *)
Definition chan_locs (rs : list channel) : list loc :=
  flat_map (λ r, [ch_data r; ch_err r]) rs.

Definition chan_ok (h : heap) (r : channel) : Prop :=
  match h !! ch_data r, h !! ch_err r with
  | Some d, Some e => Nd.shape d = Nd.shape e
  | _, _ => False
  end.

(** ** §4.2 dark current and pedestal

    [np.median] is numpy's; the model takes it as a parameter on the
    flattened values.  Pixel values are integers here, and the pedestal is
    subtracted as an integer: the model follows the stage where the median
    is a whole number.  numpy gives NaN for the median of no value and
    [x.5] for an even count whose middle values differ by an odd number;
    the statements that give cell values after the subtraction take the
    pedestal to be whole ([whole_pedestal] below). *)

Abbreviation metadata := (gmap string Z).

(** [meta[key]] *)
Definition meta_get (meta : metadata) (key : string) : res Z :=
  match meta !! key with
  | Some v => Ok v
  | None => Raise (KeyError key)
  end.

(** [str(n)] *)
Definition str (n : Z) : string := pretty n.

(** [ref -= v] *)
Definition isub (l : loc) (v : Z) : M heap unit :=
  let* a := deref l in
  store l (Nd.map3 (λ x, x - v) a).

Section dark_current.
Variable np_median : list Z → Z.

Definition _remove_dark_current_full_ccd (data : loc) (meta : metadata) (window : Z)
  : M heap unit :=
  let* ccd_x_start := lift (meta_get meta ("TDETX" +:+ str window)) in
  let pixels : nat * nat :=
    if ccd_x_start =? 1024 then (944, 989)%nat
    else if ccd_x_start =? 3072 then (926, 971)%nat
    else (39, 84)%nat in
  let* d := deref data in
  let quiet_vals := Nd.slice_cols pixels.1 pixels.2 d in
  isub data (np_median (Nd.flatten quiet_vals)).

(** The slice bound [0.02 * flatarr.shape[0]] is a float, which the numpy
    of the source (Python 2) truncates to an index: a fiftieth of the pixel
    count, rounded down.  With fewer than 50 pixels the slice is empty. *)
Definition _remove_dark_current_part_ccd (data : loc) : M heap unit :=
  let* d := deref data in
  let flatarr := merge_sort Z.le (Nd.flatten d) in
  let low_value := np_median (take (length flatarr / 50)%nat flatarr) in
  isub data low_value.

(** [print idx] writes to the console only and is left out. *)
Definition _remove_dark_current (meta : metadata) (data_and_errors : list channel)
    (retain : bool) : M heap unit :=
  for_each (λ rec,
    let data := ch_data rec in
    let err := ch_err rec in
    let idx := ch_index rec in
    let* ccd_xwidth := lift (meta_get meta ("TDETXW" +:+ str idx)) in
    (if ccd_xwidth =? 1024
     then _remove_dark_current_full_ccd data meta idx
     else _remove_dark_current_part_ccd data) ;;
    if negb retain then
      let* d := deref data in
      let negatives := Nd.map3 (λ x, x <=? 0) d in
      assign_where data negatives 0 ;;
      assign_where err negatives __missing__
    else ret tt) data_and_errors.

End dark_current.

(** ** §4.7 cosmic rays

    [detect_cosmics] is astroscrappy's: it takes a 2-D slice (and the
    keyword arguments, fixed here) and returns a boolean mask and a cleaned
    copy, leaving its input as it was. *)

(** [np.array(...)]: a new array object. *)
Definition alloc (a : Nd.arr Z) : M heap loc :=
  λ h, let l := fresh (dom h) in Ok (l, <[l := a]> h).

(** [True] stored into a numeric array. *)
Definition py_True : Z := 1.

Section cosmic_rays.
Variable detect_cosmics : Nd.arr2 Z → Nd.arr2 bool * Nd.arr2 Z.

Definition _remove_cosmic_rays (data_and_errors : list channel) : M heap unit :=
  for_each (λ rec,
    let data := ch_data rec in
    let err := ch_err rec in
    let* d := deref data in
    let slices := map detect_cosmics d in
    (* the name [data] is bound to a new array from here on *)
    let* data := alloc (map snd slices) in
    let mask := map fst slices in
    assign_where err mask py_True) data_and_errors.

End cosmic_rays.

(** ** Dates

    Every date the module handles comes out of [strptime] with a
    year-month-day format, so it is a [datetime] at midnight: the model
    keeps the calendar day.  Comparison is componentwise, as [datetime]
    compares, and the difference of two dates is a whole number of days. *)

Record datetime := Datetime { year : Z; month : Z; day : Z }.

Definition datetime_ltb (a b : datetime) : bool :=
  if year a <? year b then true
  else if year b <? year a then false
  else if month a <? month b then true
  else if month b <? month a then false
  else day a <? day b.

Definition datetime_leb (a b : datetime) : bool := negb (datetime_ltb b a).

Definition is_leap (y : Z) : bool :=
  (y mod 4 =? 0) && (negb (y mod 100 =? 0) || (y mod 400 =? 0)).

Definition days_before_year (y : Z) : Z :=
  let y := y - 1 in y * 365 + y / 4 - y / 100 + y / 400.

Definition days_before_month (y m : Z) : Z :=
  nth (Z.to_nat m) [-1; 0; 31; 59; 90; 120; 151; 181; 212; 243; 273; 304; 334] 0
  + (if (2 <? m) && is_leap y then 1 else 0).

(** [d.toordinal()] *)
Definition toordinal (d : datetime) : Z :=
  days_before_year (year d) + days_before_month (year d) (month d) + day d.

(** [(a - b).days] *)
Definition days_between (a b : datetime) : Z := toordinal a - toordinal b.

(** Decimal rendering on [w] digits, zero padded. *)
Definition zpad (w : nat) (n : Z) : string :=
  let s := pretty n in
  String.concat "" (replicate (w - String.length s) "0") +:+ s.

(** [d.strftime("%Y-%m-%d")], as the interpreter of the source (Python 2)
    formats the years it accepts, 1900 to 9999: four digits for the year.
    The statements about the text of a URL take the year in that range. *)
Definition strftime_Ymd (d : datetime) : string :=
  zpad 4 (year d) +:+ "-" +:+ zpad 2 (month d) +:+ "-" +:+ zpad 2 (day d).

(** [%b] under the [en_GB] locale, lower-cased. *)
Definition month_abbr (m : Z) : string :=
  nth (Z.to_nat m)
    [""; "jan"; "feb"; "mar"; "apr"; "may"; "jun";
     "jul"; "aug"; "sep"; "oct"; "nov"; "dec"] "".

(** [d.strftime("%d%b%y").lower()] *)
Definition strftime_dby_lower (d : datetime) : string :=
  zpad 2 (day d) +:+ month_abbr (month d) +:+ zpad 2 (year d mod 100).

(** ** §4.3 [_calculate_detectors] *)

Definition _calculate_detectors (date : datetime)
    (y_window_start n_y_pixels x_start x_width : Z) : string * string :=
  let top_bot :=
    if datetime_leb date (Datetime 2008 1 18) then "middle"
    else if y_window_start >=? 512 then "top"
    else if y_window_start + n_y_pixels <=? 512 then "bottom"
    else "both" in
  let left_right :=
    if x_start >=? 1024 then "right"
    else if x_start + x_width <? 1024 then "left"
    else "both" in
  (top_bot, left_right).

(** ** Two-dimensional bitmaps

    The canvas is a float array: a cell holds a number or NaN.  *)

Inductive cell := Num (z : Z) | NaN.

Abbreviation bitmap := (list (list cell)).

Module Bm.

(** [np.zeros((rows, cols))] *)
Definition zeros (rows cols : nat) : bitmap := replicate rows (replicate cols (Num 0)).

Definition has_shape (rows cols : nat) (t : bitmap) : bool :=
  (length t =? rows)%nat && forallb (λ r, (length r =? cols)%nat) t.

(** [l[start:stop]] with Python's treatment of negative and
    out-of-range bounds. *)
Definition py_slice {A} (start stop : Z) (l : list A) : list A :=
  let n := Z.of_nat (length l) in
  let norm i := if i <? 0 then Z.max (i + n) 0 else Z.min i n in
  let s := norm start in
  let e := norm stop in
  take (Z.to_nat (e - s)) (drop (Z.to_nat s) l).

(** [a[y0:y1, x0:x1]] *)
Definition slice2 (y0 y1 x0 x1 : Z) (a : bitmap) : bitmap :=
  map (py_slice x0 x1) (py_slice y0 y1 a).

(** [a[r, c]] *)
Definition get (a : bitmap) (r c : nat) : option cell :=
  match a !! r with Some row => row !! c | None => None end.

(** Overwrite the columns from [c0] on of one row by [new]. *)
Definition paste_row (c0 : nat) (new row : list cell) : list cell :=
  take c0 row ++ new ++ drop (c0 + length new) row.

(** Overwrite the block of [a] whose top-left corner is [(r0, c0)] by the
    rows of [t]. *)
Definition paste (r0 c0 : nat) (t a : bitmap) : bitmap :=
  take r0 a ++ zip_with (paste_row c0) t (drop r0 a) ++ drop (r0 + length t) a.

(** [a[r0:r1, c0:c1] = v] for a block inside the array.  The value is a
    Python object: [None], which numpy stores into a float array as NaN in
    every cell of the block, or an array, which must have the block's shape
    (broadcasting of smaller arrays is not modelled). *)
Definition set_block (r0 r1 c0 c1 : nat) (v : option bitmap) (a : bitmap) : res bitmap :=
  match v with
  | None => Ok (paste r0 c0 (replicate (r1 - r0) (replicate (c1 - c0) NaN)) a)
  | Some t =>
      if has_shape (r1 - r0) (c1 - c0) t then Ok (paste r0 c0 t a)
      else Raise ValueError
  end.

End Bm.

(** ** The remote archive and the process state

    An archive answers three kinds of question: the links of an index page,
    the status code a URL is answered with, and the array stored in the
    [.sav] file at a URL.  A link that [strptime(_, '%Y-%m-%d/')] parses is
    recorded with the date it parses to.  Every request is answered:
    transport failures and undecodable files are outside the model. *)

Inductive href := DateDir (d : datetime) | OtherLink (s : string).

Record archive := Archive {
  index_links : string → list href;
  status : string → Z;
  ccd_data : string → bitmap;
  dp_data : string → bitmap
}.

Inductive request := UrlOpen (url : string) | UrlRetrieve (url : string).

#[global] Instance request_eq_dec : EqDecision request.
Proof. solve_decision. Defined.

(** [__pix_memo__] and the requests sent so far, oldest first. *)
Record world := World {
  pix_memo : gmap string bitmap;
  requests : list request
}.

Definition send (r : request) : M world unit :=
  λ w, Ok (tt, World (pix_memo w) (requests w ++ [r])).

Definition memo_store (key : string) (arr : bitmap) : M world unit :=
  λ w, Ok (tt, World (<[key := arr]> (pix_memo w)) (requests w)).

Definition __darts__ : string := "http://darts.jaxa.jp/pub/ssw/solarb/eis/data/cal/".

(** ** §4.4 the pixel-map fetcher *)

(** The locale is switched to [en_GB] for the month name and switched back;
    the model formats with the [en_GB] names directly. *)
Definition _construct_hot_warm_pix_url (date : datetime)
    (pix_type detector top_bot left_right : string) : string :=
  let url := __darts__ in
  let url := url +:+ pix_type +:+ "/" in
  let url := url +:+ strftime_Ymd date +:+ "/" in
  let url := url +:+ "coords_" +:+ detector +:+ "_" +:+ left_right +:+ "_" in
  let datestr := strftime_dby_lower date in
  if decide (pix_type = "wp") then
    let url := url +:+ top_bot +:+ "_" in
    url +:+ datestr +:+ "_100s.sav"
  else
    let url := url +:+ datestr in
    let url := if decide (detector ≠ "middle") then url +:+ "_" +:+ top_bot else url in
    url +:+ ".sav".

(** [dt.datetime.strptime(link, '%Y-%m-%d/')] *)
Definition strptime (link : href) : res datetime :=
  match link with
  | DateDir d => Ok d
  | OtherLink _ => Raise ValueError
  end.

Fixpoint parse_links (links : list href) : res (list datetime) :=
  match links with
  | [] => Ok []
  | l :: ls =>
      match strptime l with
      | Ok d => match parse_links ls with
                | Ok ds => Ok (d :: ds)
                | Raise e => Raise e
                end
      | Raise e => Raise e
      end
  end.

Definition _get_cal_dates (net : archive) (pix_type : string) : M world (list datetime) :=
  let url := __darts__ +:+ pix_type +:+ "/" in
  send (UrlOpen url) ;;
  let date_str := index_links net url in
  lift (parse_links (drop 5 date_str)).

(** [list.sort(key=...)]: a stable sort, ascending in the key. *)
Fixpoint insert_by {A} (key : A → Z) (x : A) (l : list A) : list A :=
  match l with
  | [] => [x]
  | y :: l' => if key x <=? key y then x :: l else y :: insert_by key x l'
  end.

Fixpoint sort_by {A} (key : A → Z) (l : list A) : list A :=
  match l with
  | [] => []
  | x :: l' => insert_by key x (sort_by key l')
  end.

(** The sort key [lambda d: d - date if d > date else date - d], in days. *)
Definition distance (date d : datetime) : Z :=
  if datetime_ltb date d then days_between d date else days_between date d.

(** The loop over the sorted dates; falling off its end returns [None]. *)
Fixpoint probe_dates (net : archive) (key pix_type detector top_bot left_right : string)
    (dates : list datetime) : M world (option bitmap) :=
  match dates with
  | [] => ret None
  | cal_date :: rest =>
      let url := _construct_hot_warm_pix_url cal_date pix_type detector top_bot left_right in
      send (UrlOpen url) ;;
      if status net url =? 200 then
        send (UrlRetrieve url) ;;
        let arr := ccd_data net url in
        memo_store key arr ;;
        ret (Some arr)
      else probe_dates net key pix_type detector top_bot left_right rest
  end.

Definition _try_download_nearest_cal (net : archive) (date : datetime)
    (pix_type detector top_bot left_right : string) : M world (option bitmap) :=
  let key := _construct_hot_warm_pix_url date pix_type detector top_bot left_right in
  let* w := get_state in
  match pix_memo w !! key with
  | Some arr => ret (Some arr)
  | None =>
      let* dates := _get_cal_dates net pix_type in
      let dates := sort_by (distance date) dates in
      probe_dates net key pix_type detector top_bot left_right dates
  end.

Definition _get_dusty_array (net : archive) (y_window x_window : Z * Z) : M world bitmap :=
  let url := __darts__ +:+ "dp/dusty_pixels.sav" in
  send (UrlRetrieve url) ;;
  let dusties := dp_data net url in
  ret (Bm.slice2 y_window.1 y_window.2 x_window.1 x_window.2 dusties).

(** ** §4.5 the compositor *)

(** The two nested loops of [_download_calibration_data], innermost first. *)
Fixpoint fetch_row (net : archive) (date : datetime) (pix_type detector vert : string)
    (lr_tuple : list string) (retfiles : gmap string (option bitmap))
    : M world (gmap string (option bitmap)) :=
  match lr_tuple with
  | [] => ret retfiles
  | horiz :: rest =>
      let key := vert +:+ horiz in
      let* arr := _try_download_nearest_cal net date pix_type detector vert horiz in
      fetch_row net date pix_type detector vert rest (<[key := arr]> retfiles)
  end.

Fixpoint fetch_rows (net : archive) (date : datetime) (pix_type detector : string)
    (tb_tuple lr_tuple : list string) (retfiles : gmap string (option bitmap))
    : M world (gmap string (option bitmap)) :=
  match tb_tuple with
  | [] => ret retfiles
  | vert :: rest =>
      let* retfiles := fetch_row net date pix_type detector vert lr_tuple retfiles in
      fetch_rows net date pix_type detector rest lr_tuple retfiles
  end.

(** The returned dict maps a key to an array or to [None]. *)
Definition _download_calibration_data (net : archive) (date : datetime)
    (pix_type detector top_bot left_right : string)
    : M world (gmap string (option bitmap)) :=
  let tb_tuple := if decide (top_bot = "both") then ["top"; "bottom"] else [top_bot] in
  let lr_tuple := if decide (left_right = "both") then ["left"; "right"] else [left_right] in
  fetch_rows net date pix_type detector tb_tuple lr_tuple ∅.

(** [d.get(key, default)] *)
Definition dict_get {V} (d : gmap string V) (key : string) (default : V) : V :=
  match d !! key with
  | Some v => v
  | None => default
  end.

(** The canvas assembled from the fetched tiles (the local [glued_array]
    of [_get_pixel_map] after its four block assignments). *)
Definition glued_array (arrays : gmap string (option bitmap)) : res bitmap :=
  let glued_array := Bm.zeros 1024 2048 in
  let zero_arr := Some (Bm.zeros 512 1024) in
  match Bm.set_block 0 512 0 1024 (dict_get arrays "topleft" zero_arr) glued_array with
  | Raise e => Raise e
  | Ok glued_array =>
  match Bm.set_block 512 1024 1024 2048 (dict_get arrays "bottomright" zero_arr) glued_array with
  | Raise e => Raise e
  | Ok glued_array =>
  match Bm.set_block 512 1024 0 1024 (dict_get arrays "bottomleft" zero_arr) glued_array with
  | Raise e => Raise e
  | Ok glued_array =>
    Bm.set_block 0 512 1024 2048 (dict_get arrays "topright" zero_arr) glued_array
  end end end.

Definition _get_pixel_map (net : archive) (date : datetime) (pix_type detector : string)
    (y_window x_window : Z * Z) : M world bitmap :=
  let y_window_start := y_window.1 in
  let x_start := x_window.1 mod 2048 in
  let n_y_pixels := y_window.2 - y_window.1 in
  let x_width := x_window.2 - x_window.1 in
  let detector_areas :=
    _calculate_detectors date y_window_start n_y_pixels x_start x_width in
  let* arrays :=
    _download_calibration_data net date pix_type detector
      detector_areas.1 detector_areas.2 in
  let* glued_array := lift (glued_array arrays) in
  ret (Bm.slice2 y_window_start y_window.2 x_start (x_window.2 mod 2048) glued_array).

(** ** Vocabulary of the statements *)

(** [a] is on or before [b]. *)
Definition on_or_before (a b : datetime) : Prop :=
  year a < year b ∨
  (year a = year b ∧ (month a < month b ∨ (month a = month b ∧ day a ≤ day b))).

(** The stacked detection mask of the cosmic-ray stage, and the records
    whose error array it fits. *)
Definition cosmic_mask (detect_cosmics : Nd.arr2 Z → Nd.arr2 bool * Nd.arr2 Z)
    (d : Nd.arr Z) : Nd.arr bool :=
  map fst (map detect_cosmics d).

Definition cosmic_ok (detect_cosmics : Nd.arr2 Z → Nd.arr2 bool * Nd.arr2 Z)
    (h : heap) (r : channel) : Prop :=
  match h !! ch_data r, h !! ch_err r with
  | Some d, Some e => Nd.shape (cosmic_mask detect_cosmics d) = Nd.shape e
  | _, _ => False
  end.

(** The days of a month, and the dates a [datetime] can hold. *)
Definition days_in_month (y m : Z) : Z :=
  nth (Z.to_nat m) [0; 31; 28; 31; 30; 31; 30; 31; 31; 30; 31; 30; 31] 0
  + (if (m =? 2) && is_leap y then 1 else 0).

Definition valid_date (d : datetime) : Prop :=
  1 ≤ month d ≤ 12 ∧ 1 ≤ day d ≤ days_in_month (year d) (month d).

(** Ascending in a key. *)
Definition key_le {A} (key : A → Z) (a b : A) : Prop := key a ≤ key b.

(** A computation returns, from a given state, a value with a given
    property; and the same for a plain result. *)
Definition returns {S A} (m : M S A) (s : S) (P : A → Prop) : Prop :=
  match m s with
  | Ok (a, _) => P a
  | Raise _ => False
  end.

Definition yields {A} (r : res A) (P : A → Prop) : Prop :=
  match r with
  | Ok a => P a
  | Raise _ => False
  end.

Definition is_nan (c : cell) : bool :=
  match c with NaN => true | Num _ => false end.


(** One later fetch of the process: a memoized tile fetch or a fetch of
    the dusty-pixel map, with any arguments and any state of the archive. *)
Inductive fetch_step : world → world → Prop :=
  | step_tile net date pix_type detector top_bot left_right w r w' :
      _try_download_nearest_cal net date pix_type detector top_bot left_right w
        = Ok (r, w') →
      fetch_step w w'
  | step_dusty net y_window x_window w r w' :
      _get_dusty_array net y_window x_window w = Ok (r, w') →
      fetch_step w w'.

(** ** Sample inputs *)

(** Two channels of one exposure, 1 x 2 x 3 pixels each, with fresh
    all-zero error arrays as the loader builds them. *)
Definition sample_heap : heap :=
  <[4%positive := [[[0; 0; 0]; [0; 0; 0]]]]>
  (<[3%positive := [[[7; 16383; 300]; [-2; 16382; 1]]]]>
  (<[2%positive := [[[0; 0; 0]; [0; 0; 0]]]]>
  (<[1%positive := [[[120; 0; 20000]; [5; 1; 16400]]]]> ∅))).

Definition sample_channels : list channel :=
  [Channel 1 2 1; Channel 3 4 2].

(** A median for the samples: the middle value of the sorted list, which
    is the median whenever the count is odd. *)
Definition sample_median (l : list Z) : Z :=
  default 0 (merge_sort Z.le l !! (length l / 2)%nat).

(** One channel of 1 x 1 x 50 pixels on a 50-column window: the darkest
    pixel reads 100, the others 130. *)
Definition dark_heap : heap :=
  <[2%positive := [[replicate 50 0]]]>
  (<[1%positive := [[100 :: replicate 49 130]]]> ∅).

Definition dark_meta : metadata := <["TDETXW1" := 50]> (<["TDETX1" := 0]> ∅).

Definition dark_channels : list channel := [Channel 1 2 1].

(** A detector for the samples: counts of 1000 and more are hits, and a
    hit is cleaned to 0. *)
Definition sample_detect (s : Nd.arr2 Z) : Nd.arr2 bool * Nd.arr2 Z :=
  (map (map (λ x, 1000 <=? x)) s,
   map (map (λ x, if 1000 <=? x then 0 else x)) s).

Definition cosmic_heap : heap :=
  <[2%positive := [[[0; 0]]; [[0; 0]]]]>
  (<[1%positive := [[[5; 2000]]; [[7; 9]]]]> ∅).

Definition cosmic_channels : list channel := [Channel 1 2 1].

(** An archive with four calibration dates for hot pixels behind the five
    leading links of its index page.  Only the 2015-01-05 tiles of detector
    a answer with 200, and its top-right tile is not among them.  Every
    tile marks its first pixel as hot. *)
Definition sample_tile : bitmap :=
  (Num 1 :: replicate 1023 (Num 0)) :: replicate 511 (replicate 1024 (Num 0)).

Definition sample_links : list href :=
  [OtherLink "?C=N;O=D"; OtherLink "?C=M;O=A"; OtherLink "?C=S;O=A";
   OtherLink "?C=D;O=A"; OtherLink "/pub/ssw/solarb/eis/data/cal/";
   DateDir (Datetime 2014 12 20); DateDir (Datetime 2014 12 28);
   DateDir (Datetime 2015 1 5); DateDir (Datetime 2015 1 9)].

Definition sample_ok_urls : list string :=
  [_construct_hot_warm_pix_url (Datetime 2015 1 5) "hp" "a" "top" "left";
   _construct_hot_warm_pix_url (Datetime 2015 1 5) "hp" "a" "bottom" "left";
   _construct_hot_warm_pix_url (Datetime 2015 1 5) "hp" "a" "bottom" "right"].

Definition sample_net : archive := {|
  index_links := λ url,
    if decide (url = __darts__ +:+ "hp/") then sample_links else [];
  status := λ url, if decide (url ∈ sample_ok_urls) then 200 else 404;
  ccd_data := λ _, sample_tile;
  dp_data := λ _, Bm.zeros 1024 4096
|}.


(** A process that has fetched nothing yet. *)
Definition fresh_world : world := World ∅ [].

(** The process after its first fetch of the bottom-right hot-pixel tile
    of detector a for 2015-01-01, served by the 2015-01-05 calibration. *)
Definition fetched_world : world :=
  World
    {[ _construct_hot_warm_pix_url (Datetime 2015 1 1) "hp" "a" "bottom" "right"
         := sample_tile ]}
    [UrlOpen (__darts__ +:+ "hp/");
     UrlOpen (_construct_hot_warm_pix_url (Datetime 2014 12 28) "hp" "a" "bottom" "right");
     UrlOpen (_construct_hot_warm_pix_url (Datetime 2015 1 5) "hp" "a" "bottom" "right");
     UrlRetrieve (_construct_hot_warm_pix_url (Datetime 2015 1 5) "hp" "a" "bottom" "right")].

(** An archive that lists nothing and answers 404 to everything. *)
Definition dead_net : archive := Archive (λ _, []) (λ _, 404) (λ _, []) (λ _, []).

(** ** Vocabulary of the further statements *)

(** The scalar [_remove_dark_current] subtracts from the data array [d] of
    a record: the median of the quiet columns for a window of width 1024,
    the median of the lowest fiftieth of the sorted values otherwise. *)
Definition pedestal (np_median : list Z → Z) (meta : metadata) (r : channel)
    (d : Nd.arr Z) : res Z :=
  match meta_get meta ("TDETXW" +:+ str (ch_index r)) with
  | Raise e => Raise e
  | Ok ccd_xwidth =>
      if ccd_xwidth =? 1024 then
        match meta_get meta ("TDETX" +:+ str (ch_index r)) with
        | Raise e => Raise e
        | Ok ccd_x_start =>
            let pixels : nat * nat :=
              if ccd_x_start =? 1024 then (944, 989)%nat
              else if ccd_x_start =? 3072 then (926, 971)%nat
              else (39, 84)%nat in
            Ok (np_median (Nd.flatten (Nd.slice_cols pixels.1 pixels.2 d)))
        end
      else
        let flatarr := merge_sort Z.le (Nd.flatten d) in
        Ok (np_median (take (length flatarr / 50)%nat flatarr))
  end.

(** A record the dark-current stage can process: its arrays have one
    shape and the metadata holds the keys of its window. *)
Definition dark_ok (np_median : list Z → Z) (meta : metadata) (h : heap)
    (r : channel) : Prop :=
  match h !! ch_data r, h !! ch_err r with
  | Some d, Some e =>
      Nd.shape d = Nd.shape e ∧
      match pedestal np_median meta r d with Ok _ => True | Raise _ => False end
  | _, _ => False
  end.

(** What [np.median] gives on whole numbers: NaN when there is no value,
    the middle value of an odd count, and the mean of the two middle values
    of an even count, which is whole or falls halfway between two whole
    numbers ([Halfway v] stands for [v + 0.5]). *)
Inductive median := Whole (v : Z) | Halfway (v : Z) | NotANumber.

Definition numpy_median (l : list Z) : median :=
  let s := merge_sort Z.le l in
  let n := length s in
  match s !! (n / 2)%nat with
  | None => NotANumber
  | Some hi =>
      if Nat.odd n then Whole hi
      else match s !! (n / 2 - 1)%nat with
           | Some lo =>
               if Z.even (lo + hi) then Whole ((lo + hi) / 2)
               else Halfway ((lo + hi) / 2)
           | None => NotANumber
           end
  end.

(** The values whose median [_remove_dark_current] subtracts from the data
    array [d] of a record: the quiet columns for a window of width 1024,
    the lowest fiftieth of the sorted values otherwise (no value at all
    when the array has fewer than 50 pixels). *)
Definition pedestal_values (meta : metadata) (r : channel) (d : Nd.arr Z)
    : res (list Z) :=
  match meta_get meta ("TDETXW" +:+ str (ch_index r)) with
  | Raise e => Raise e
  | Ok ccd_xwidth =>
      if ccd_xwidth =? 1024 then
        match meta_get meta ("TDETX" +:+ str (ch_index r)) with
        | Raise e => Raise e
        | Ok ccd_x_start =>
            let pixels : nat * nat :=
              if ccd_x_start =? 1024 then (944, 989)%nat
              else if ccd_x_start =? 3072 then (926, 971)%nat
              else (39, 84)%nat in
            Ok (Nd.flatten (Nd.slice_cols pixels.1 pixels.2 d))
        end
      else
        let flatarr := merge_sort Z.le (Nd.flatten d) in
        Ok (take (length flatarr / 50)%nat flatarr)
  end.

(** The pedestal of a record is a whole number, and it is the one the
    parameter [np_median] gives: numpy's median of the record's values is
    neither NaN nor halfway between two whole numbers. *)
Definition whole_pedestal (np_median : list Z → Z) (meta : metadata) (h : heap)
    (r : channel) : Prop :=
  match h !! ch_data r with
  | Some d =>
      match pedestal_values meta r d with
      | Ok l => numpy_median l = Whole (np_median l)
      | Raise _ => False
      end
  | None => False
  end.

(** A median commutes with shifting all values by a constant. *)
Definition shift_equivariant (np_median : list Z → Z) : Prop :=
  ∀ l v, l ≠ [] → np_median (map (λ x, x - v) l) = np_median l - v.

(** The quiet columns [_remove_dark_current_full_ccd] reads for a window
    that starts at column [ccd_x_start]. *)
Definition quiet_columns (ccd_x_start : Z) : nat * nat :=
  if ccd_x_start =? 1024 then (944, 989)%nat
  else if ccd_x_start =? 3072 then (926, 971)%nat
  else (39, 84)%nat.

(** The dict key of the quadrant that holds row [r], column [c] of the
    canvas, as the four block assignments of [_get_pixel_map] lay the
    quadrants out: rows 0 to 511 are the "top" tiles, columns 0 to 1023 the
    "left" ones. *)
Definition quadrant_key (r c : nat) : string :=
  (if (r <? 512)%nat then "top" else "bottom")
  +:+ (if (c <? 1024)%nat then "left" else "right").

(** What a dict of fetched tiles puts at row [r], column [c] of the
    canvas: 0 without an entry for the quadrant, NaN for an entry [None],
    the tile's own cell otherwise. *)
Definition quadrant_cell (arrays : gmap string (option bitmap)) (r c : nat)
  : option cell :=
  match arrays !! quadrant_key r c with
  | None => Some (Num 0)
  | Some None => Some NaN
  | Some (Some t) => Bm.get t (r mod 512)%nat (c mod 1024)%nat
  end.

(** The cell a block assignment [a[...] = v] writes at offset [(i, j)] of
    the block. *)
Definition block_cell (v : option bitmap) (i j : nat) : option cell :=
  match v with
  | None => Some NaN
  | Some t => Bm.get t i j
  end.

(** The tiles of a dict that the canvas takes are 512 x 1024. *)
Definition tiles_fit (arrays : gmap string (option bitmap)) : Prop :=
  ∀ key t, key ∈ ["topleft"; "bottomright"; "bottomleft"; "topright"] →
           arrays !! key = Some (Some t) → Bm.has_shape 512 1024 t = true.

(** A bitmap of [rows] rows of [cols] cells each. *)
Definition shaped (rows cols : nat) (a : bitmap) : Prop :=
  length a = rows ∧ Forall (λ r, length r = cols) a.

(** The dict and the state after [_download_calibration_data] for the
    labels both/right on the sample archive from a fresh process: the
    top-right fetch is absent, the bottom-right one is served by the
    2015-01-05 calibration. *)
Definition sample_arrays : gmap string (option bitmap) :=
  <["bottomright" := Some sample_tile]> (<["topright" := None]> ∅).

Definition composed_world : world :=
  World
    {[ _construct_hot_warm_pix_url (Datetime 2015 1 1) "hp" "a" "bottom" "right"
         := sample_tile ]}
    [UrlOpen (__darts__ +:+ "hp/");
     UrlOpen (_construct_hot_warm_pix_url (Datetime 2014 12 28) "hp" "a" "top" "right");
     UrlOpen (_construct_hot_warm_pix_url (Datetime 2015 1 5) "hp" "a" "top" "right");
     UrlOpen (_construct_hot_warm_pix_url (Datetime 2015 1 9) "hp" "a" "top" "right");
     UrlOpen (_construct_hot_warm_pix_url (Datetime 2014 12 20) "hp" "a" "top" "right");
     UrlOpen (__darts__ +:+ "hp/");
     UrlOpen (_construct_hot_warm_pix_url (Datetime 2014 12 28) "hp" "a" "bottom" "right");
     UrlOpen (_construct_hot_warm_pix_url (Datetime 2015 1 5) "hp" "a" "bottom" "right");
     UrlRetrieve (_construct_hot_warm_pix_url (Datetime 2015 1 5) "hp" "a" "bottom" "right")].

(** Reading a decimal rendering back, to check that zero-padded fields
    determine their numbers. *)
Definition digit_value (c : Ascii.ascii) : Z := Z.of_N (Ascii.N_of_ascii c) - 48.

Fixpoint parse_decimal_go (s : string) (acc : Z) : Z :=
  match s with
  | EmptyString => acc
  | String c s' => parse_decimal_go s' (10 * acc + digit_value c)
  end.

Definition parse_decimal (s : string) : Z := parse_decimal_go s 0.

Definition zpad_round_trip (w : nat) (n : Z) : bool :=
  (String.length (zpad w n) =? w)%nat && (parse_decimal (zpad w n) =? n).

(** ** §4.6 [_calibrate_pixels]

    The stage reads the header, fetches the three defect maps and writes
    the error arrays, so it runs over the store of arrays and the fetcher's
    state together.  The header is kept as its integer cards (the
    [metadata] of §4.2) and its string cards.  [strptime] with the format
    ["%Y-%m-%d"] and [str.lower] are the interpreter's and are taken as
    parameters. *)

Record header := Header {
  int_cards : metadata;
  str_cards : gmap string string
}.

(** [meta[key]] for a string card *)
Definition text_get (meta : header) (key : string) : res string :=
  match str_cards meta !! key with
  | Some v => Ok v
  | None => Raise (KeyError key)
  end.

Definition on_heap {A} (m : M heap A) : M (heap * world) A :=
  λ s, match m s.1 with
       | Ok (a, h') => Ok (a, (h', s.2))
       | Raise e => Raise e
       end.

Definition on_world {A} (m : M world A) : M (heap * world) A :=
  λ s, match m s.2 with
       | Ok (a, w') => Ok (a, (s.1, w'))
       | Raise e => Raise e
       end.

(** [bitmap == 1] *)
Definition equals_one (b : bitmap) : list (list bool) :=
  map (map (λ c, match c with Num 1 => true | _ => false end)) b.

(** [a[mask] = v] on a copy of a 2-D array; the mask must have the
    array's shape. *)
Definition set_where2 {A} (mask : list (list bool)) (v : A) (a : list (list A))
  : res (list (list A)) :=
  if decide (map length mask = map length a)
  then Ok (zip_with (zip_with (λ (b : bool) x, if b then v else x)) mask a)
  else Raise IndexError.

(** [for x_slice in err: x_slice[locations] = __missing__] on a copy *)
Fixpoint mark_slices (locations : list (list bool)) (err : Nd.arr Z) : res (Nd.arr Z) :=
  match err with
  | [] => Ok []
  | x_slice :: rest =>
      match set_where2 locations __missing__ x_slice with
      | Raise e => Raise e
      | Ok x_slice' =>
          match mark_slices locations rest with
          | Raise e => Raise e
          | Ok rest' => Ok (x_slice' :: rest')
          end
      end
  end.

Section calibrate_pixels.
Variable strptime_Ymd : string → res datetime.
Variable lower : string → string.

(** [meta['YWS']] and [meta['TDETX' + str(index)]] are read twice by the
    source; a second read of the same dict gives the same value, so each is
    bound once. *)
Definition _calibrate_pixels (net : archive) (meta : header)
    (data_and_errors : list channel) : M (heap * world) unit :=
  for_each (λ rec,
    let err := ch_err rec in
    let index := ch_index rec in
    let* date_obs := lift (text_get meta "DATE_OBS") in
    let* date := lift (strptime_Ymd (String.substring 0 10 date_obs)) in
    let* yws := lift (meta_get (int_cards meta) "YWS") in
    let* yw := lift (meta_get (int_cards meta) "YW") in
    let y_window := (yws, yws + yw) in
    let* tdetx := lift (meta_get (int_cards meta) ("TDETX" +:+ str index)) in
    let* tdetxw := lift (meta_get (int_cards meta) ("TDETXW" +:+ str index)) in
    let x_window := (tdetx, tdetx + tdetxw) in
    let* twbnd := lift (text_get meta ("TWBND" +:+ str index)) in
    let detector := lower twbnd in
    let* hots := on_world (_get_pixel_map net date "hp" detector y_window x_window) in
    let* warms := on_world (_get_pixel_map net date "wp" detector y_window x_window) in
    let* dusties := on_world (_get_dusty_array net y_window x_window) in
    let locations := equals_one hots in
    let* locations := lift (set_where2 (equals_one warms) true locations) in
    let* locations := lift (set_where2 (equals_one dusties) true locations) in
    let* e := on_heap (deref err) in
    let* e' := lift (mark_slices locations e) in
    on_heap (store err e')) data_and_errors.

End calibrate_pixels.

(** [a[i][j]] in a nested list *)
Definition lookup2 {A} (a : list (list A)) (i j : nat) : option A :=
  match a !! i with
  | Some r => r !! j
  | None => None
  end.

(** Whether a defect map marks the pixel at row [i], column [j]. *)
Definition is_defect (b : bitmap) (i j : nat) : bool :=
  match Bm.get b i j with
  | Some (Num 1) => true
  | _ => false
  end.

(** Sample parameters and inputs for the defect stage: a parser that
    knows one date, a [lower] that knows the two detector names, a header,
    and an archive without hot or warm tiles whose dusty-pixel map marks
    its first pixel. *)
Definition sample_strptime (s : string) : res datetime :=
  if decide (s = "2015-01-01") then Ok (Datetime 2015 1 1) else Raise ValueError.

Definition sample_lower (s : string) : string :=
  if decide (s = "A") then "a" else if decide (s = "B") then "b" else s.

Definition sample_header : header :=
  Header
    (<["YWS" := 0]> (<["YW" := 2]> (<["TDETX1" := 0]> (<["TDETXW1" := 3]> ∅))))
    (<["DATE_OBS" := "2015-01-01T10:20:30.000"]> (<["TWBND1" := "A"]> ∅)).

Definition dusty_net : archive :=
  Archive (λ _, []) (λ _, 404) (λ _, []) (λ _, sample_tile).

Definition defect_heap : heap :=
  <[2%positive := [[[0; 0; 0]; [0; 0; 0]]; [[0; 0; 0]; [-100; 0; 0]]]]>
  (<[1%positive := [[[5; 6; 7]; [8; 9; 10]]; [[5; 6; 7]; [8; 9; 10]]]]> ∅).

(* ===================================================================== *)
(** * Part II: properties                                                 *)
(* ===================================================================== *)

(** ** Array lemmas *)

Section nd_lemmas.
Context {A B C D : Type}.

Lemma zip_with_map_same (f : B → C → D) (g : A → B) (h : A → C) (l : list A) :
  zip_with f (map g l) (map h l) = map (λ x, f (g x) (h x)) l.
Proof. induction l as [|x l IH]; simpl; [done|]. by rewrite IH. Qed.

Lemma zip_with_map_left (f : B → A → D) (g : A → B) (l : list A) :
  zip_with f (map g l) l = map (λ x, f (g x) x) l.
Proof. induction l as [|x l IH]; simpl; [done|]. by rewrite IH. Qed.
End nd_lemmas.

Section zip_lemmas.
Context {A B : Type}.

Lemma zip_with_absorb (F : A → B → B) (l : list A) (k : list B) :
  (∀ a b, F a (F a b) = F a b) →
  zip_with F l (zip_with F l k) = zip_with F l k.
Proof.
  intros HF. revert k. induction l as [|a l IH]; intros [|b k]; simpl; try done.
  by rewrite HF, IH.
Qed.

Lemma map_length_lookup (a : list (list A)) (b : list (list B)) i s :
  map length a = map length b → a !! i = Some s →
  ∃ t, b !! i = Some t ∧ length t = length s.
Proof.
  intros Hsh Ha.
  assert (Hl : map length a !! i = Some (length s)).
  { change (map length a) with (length <$> a).
    by rewrite list_lookup_fmap, Ha. }
  rewrite Hsh in Hl. change (map length b) with (length <$> b) in Hl.
  rewrite list_lookup_fmap in Hl.
  destruct (b !! i) as [t|]; simpl in Hl; [|done].
  exists t. split; [done|]. congruence.
Qed.
End zip_lemmas.

Module NdFacts.
Import Nd.

Lemma shape_map3 {A B} (f : A → B) (a : arr A) : shape (map3 f a) = shape a.
Proof.
  unfold shape, map3. rewrite map_map. apply map_ext; intros s.
  rewrite map_map. apply map_ext; intros r. apply length_map.
Qed.

Lemma zip3_map3_same {A B C D} (f : B → C → D) (g : A → B) (h : A → C) (a : arr A) :
  zip3 f (map3 g a) (map3 h a) = map3 (λ x, f (g x) (h x)) a.
Proof.
  unfold zip3, map3. rewrite zip_with_map_same. apply map_ext; intros s.
  rewrite zip_with_map_same. apply map_ext; intros r.
  apply zip_with_map_same.
Qed.

Lemma zip3_map3_left {A B D} (f : B → A → D) (g : A → B) (a : arr A) :
  zip3 f (map3 g a) a = map3 (λ x, f (g x) x) a.
Proof.
  unfold zip3, map3. rewrite zip_with_map_left. apply map_ext; intros s.
  rewrite zip_with_map_left. apply map_ext; intros r.
  apply zip_with_map_left.
Qed.

Lemma get_map3 {A B} (f : A → B) (a : arr A) p : get (map3 f a) p = f <$> get a p.
Proof.
  destruct p as [[k i] j]. unfold get, map3.
  rewrite !list_lookup_fmap. destruct (a !! k) as [s|]; simpl; [|done].
  rewrite list_lookup_fmap. destruct (s !! i) as [r|]; simpl; [|done].
  by rewrite list_lookup_fmap.
Qed.




Lemma shape_zip3_mask {A} (v : A) (m : arr bool) (a : arr A) :
  shape m = shape a →
  shape (zip3 (λ (b : bool) x, if b then v else x) m a) = shape a.
Proof.
  unfold shape, zip3. revert a.
  induction m as [|s m IH]; intros [|t a] Hsh; simpl in *; try done.
  injection Hsh as Hst Hma. f_equal; [|by apply IH].
  clear IH Hma. revert t Hst.
  induction s as [|r s IH]; intros [|u t] Hst; simpl in *; try done.
  injection Hst as Hru Hst. f_equal; [|by apply IH].
  rewrite length_zip_with. lia.
Qed.

Lemma get_zip3 {A B C} (f : A → B → C) (a : arr A) (b : arr B) p :
  get (zip3 f a b) p =
  match get a p, get b p with
  | Some x, Some y => Some (f x y)
  | _, _ => None
  end.
Proof.
  destruct p as [[k i] j]. unfold get, zip3.
  rewrite lookup_zip_with.
  destruct (a !! k) as [s|], (b !! k) as [t|]; simpl; try done.
  - rewrite lookup_zip_with.
    destruct (s !! i) as [r|], (t !! i) as [u|]; simpl; try done.
    + rewrite lookup_zip_with.
      by destruct (r !! j), (u !! j).
    + by destruct (r !! j).
  - destruct (s !! i) as [r|]; [|done]. by destruct (r !! j).
Qed.

Lemma get_same_shape {A B} (a : arr A) (b : arr B) p x :
  shape a = shape b → get a p = Some x → ∃ y, get b p = Some y.
Proof.
  destruct p as [[k i] j]. unfold get, shape. intros Hsh Hg.
  destruct (a !! k) as [s|] eqn:Hs; [|done].
  destruct (s !! i) as [r|] eqn:Hr; [|done].
  assert (Hl : map (map length) a !! k = Some (map length s)).
  { change (map (map length) a) with (map length <$> a).
    by rewrite list_lookup_fmap, Hs. }
  rewrite Hsh in Hl. change (map (map length) b) with (map length <$> b) in Hl.
  rewrite list_lookup_fmap in Hl.
  destruct (b !! k) as [t|]; simpl in Hl; [|done].
  injection Hl as Hl. symmetry in Hl.
  destruct (map_length_lookup _ _ _ _ Hl Hr) as (u & -> & Hlen).
  apply lookup_lt_is_Some. rewrite Hlen. by eapply lookup_lt_Some.
Qed.

Lemma map3_map3 {A B C} (f : B → C) (g : A → B) (a : arr A) :
  map3 f (map3 g a) = map3 (λ x, f (g x)) a.
Proof.
  unfold map3. rewrite map_map. apply map_ext; intros s.
  rewrite map_map. apply map_ext; intros r. apply map_map.
Qed.

Lemma map3_ext {A B} (f g : A → B) (a : arr A) :
  (∀ x, f x = g x) → map3 f a = map3 g a.
Proof.
  intros Hfg. unfold map3.
  apply map_ext; intros s. apply map_ext; intros r. by apply map_ext.
Qed.

Lemma zip3_absorb {A B} (F : A → B → B) (m : arr A) (a : arr B) :
  (∀ x y, F x (F x y) = F x y) → zip3 F m (zip3 F m a) = zip3 F m a.
Proof.
  intros HF. unfold zip3.
  apply zip_with_absorb; intros s t.
  apply zip_with_absorb; intros r u.
  by apply zip_with_absorb.
Qed.

End NdFacts.

(** ** §4.1: the invalid-pixel stage *)

Section zeros_saturated.
Import Nd NdFacts.

Lemma invalid_spec x : invalid x = true ↔ x ≤ 0 ∨ 16383 ≤ x.
Proof.
  unfold invalid. destruct (x >=? 16383) eqn:Hs.
  - split; [|done]. intros _. right. lia.
  - rewrite Z.leb_le. split; [by left|]. intros [H|H]; [done|lia].
Qed.

(** One iteration of the loop, on a record whose arrays are distinct
    objects of one shape. *)
Lemma zs_step r rs (h : heap) d e :
  h !! ch_data r = Some d → h !! ch_err r = Some e →
  ch_data r ≠ ch_err r → shape d = shape e →
  _remove_zeros_saturated (r :: rs) h =
  _remove_zeros_saturated rs
    (<[ch_err r := zs_err d e]> (<[ch_data r := zs_data d]> h)).
Proof.
  intros Hd He Hne Hsh.
  unfold _remove_zeros_saturated at 1. simpl for_each.
  unfold bind at 1. unfold bind at 1. unfold deref at 1. rewrite Hd.
  unfold bind at 1. unfold lift at 1, set_where at 1.
  rewrite !shape_map3, decide_True by done.
  rewrite zip3_map3_same.
  change (λ x : Z, if x >=? 16383 then true else x <=? 0) with invalid.
  unfold bind at 1. unfold assign_where at 1.
  unfold bind at 1. unfold deref at 1. rewrite Hd.
  unfold bind at 1. unfold lift at 1, set_where at 1.
  rewrite shape_map3, decide_True by done.
  rewrite zip3_map3_left. unfold store at 1.
  unfold assign_where at 1.
  unfold bind at 1. unfold deref at 1.
  rewrite lookup_insert_ne by done. rewrite He.
  unfold bind at 1. unfold lift at 1, set_where at 1.
  rewrite shape_map3, decide_True by done.
  unfold store at 1. reflexivity.
Qed.

Lemma chan_locs_elem r rs :
  r ∈ rs → ch_data r ∈ chan_locs rs ∧ ch_err r ∈ chan_locs rs.
Proof.
  intros Hr. unfold chan_locs.
  split; apply list_elem_of_In, in_flat_map; exists r;
    (split; [by apply list_elem_of_In|simpl; auto]).
Qed.

Lemma chan_ok_frame (h h' : heap) r :
  h' !! ch_data r = h !! ch_data r → h' !! ch_err r = h !! ch_err r →
  chan_ok h r → chan_ok h' r.
Proof. unfold chan_ok. by intros -> ->. Qed.

(** The whole stage on records over pairwise distinct arrays: it returns,
    rewrites each record's two arrays by [zs_data] and [zs_err], and
    touches nothing else. *)
Lemma zs_stage rs : ∀ h : heap,
  NoDup (chan_locs rs) → Forall (chan_ok h) rs →
  ∃ h' : heap,
    _remove_zeros_saturated rs h = Ok (tt, h') ∧
    (∀ l, l ∉ chan_locs rs → h' !! l = h !! l) ∧
    (∀ r d e, r ∈ rs → h !! ch_data r = Some d → h !! ch_err r = Some e →
       h' !! ch_data r = Some (zs_data d) ∧ h' !! ch_err r = Some (zs_err d e)).
Proof.
  induction rs as [|r rs IH]; intros h Hnd Hok.
  - exists h. split; [done|]. split; [done|]. intros r d e Hr. by apply elem_of_nil in Hr.
  - simpl in Hnd. apply NoDup_cons in Hnd as [Hd1 Hnd].
    apply NoDup_cons in Hnd as [He1 Hnd].
    apply Forall_cons in Hok as [Hr Hok].
    assert (Hne : ch_data r ≠ ch_err r).
    { intros Heq. apply Hd1. rewrite Heq. apply elem_of_cons. by left. }
    assert (Hd2 : ch_data r ∉ chan_locs rs).
    { intros Hin. apply Hd1. apply elem_of_cons. by right. }
    unfold chan_ok in Hr.
    destruct (h !! ch_data r) as [d|] eqn:Hd; [|done].
    destruct (h !! ch_err r) as [e|] eqn:He; [|done].
    rewrite (zs_step r rs h d e) by done.
    set (h1 := <[ch_err r := zs_err d e]> (<[ch_data r := zs_data d]> h)).
    assert (Hfr : ∀ l, l ∈ chan_locs rs → h1 !! l = h !! l).
    { intros l Hl. unfold h1.
      rewrite !lookup_insert_ne; [done| |]; intros <-; done. }
    destruct (IH h1 Hnd) as (h' & Hrun & Hframe & Hrec).
    { apply Forall_forall. intros r' Hr'.
      rewrite Forall_forall in Hok. specialize (Hok r' Hr').
      apply chan_locs_elem in Hr' as [? ?].
      eapply chan_ok_frame; [..|exact Hok]; by apply Hfr. }
    exists h'. split; [done|]. split.
    + intros l Hl. simpl in Hl.
      apply not_elem_of_cons in Hl as [Hl1 Hl].
      apply not_elem_of_cons in Hl as [Hl2 Hl].
      rewrite Hframe by done. unfold h1. by rewrite !lookup_insert_ne.
    + intros r0 d0 e0 Hr0 Hd0 He0. apply elem_of_cons in Hr0 as [->|Hr0].
      * rewrite !Hframe by done. unfold h1.
        rewrite lookup_insert_ne, !lookup_insert_eq by done.
        rewrite Hd in Hd0. rewrite He in He0. by simplify_eq.
      * apply chan_locs_elem in Hr0 as Hin. destruct Hin as [Hi1 Hi2].
        apply Hrec; [done|..]; by rewrite Hfr.
Qed.

Lemma chan_locs_inv l rs :
  l ∈ chan_locs rs → ∃ r, r ∈ rs ∧ (l = ch_data r ∨ l = ch_err r).
Proof.
  unfold chan_locs. intros Hl.
  apply list_elem_of_In, in_flat_map in Hl as (r & Hr & Hl).
  exists r. split; [by apply list_elem_of_In|].
  simpl in Hl. destruct Hl as [<-|[<-|[]]]; auto.
Qed.

Lemma invalid_clamped x : invalid (if invalid x then 0 else x) = invalid x.
Proof. by destruct (invalid x) eqn:Hx. Qed.

Lemma zs_data_idem d : zs_data (zs_data d) = zs_data d.
Proof.
  unfold zs_data. rewrite map3_map3. apply map3_ext; intros x.
  rewrite invalid_clamped. by destruct (invalid x).
Qed.

Lemma zs_err_idem d e : zs_err (zs_data d) (zs_err d e) = zs_err d e.
Proof.
  unfold zs_err, zs_data. rewrite map3_map3.
  rewrite (map3_ext _ invalid) by apply invalid_clamped.
  apply zip3_absorb. by intros [] y.
Qed.

Lemma zs_shapes d e :
  shape d = shape e → shape (zs_data d) = shape (zs_err d e).
Proof.
  intros Hsh. unfold zs_data, zs_err.
  rewrite shape_map3, shape_zip3_mask; [done|]. by rewrite shape_map3.
Qed.

End zeros_saturated.

(** C5: for every channel record given to [_remove_zeros_saturated] and
    every pixel [p], if [data[p] <= 0] or [data[p] >= 16383] before the
    stage then afterwards [data[p] == 0] and [error[p] == -100]; every
    other pixel keeps its data and error values.  The stage returns on
    records over distinct arrays with [data.shape == error.shape]. *)
Theorem remove_zeros_saturated_pixels rs (h : heap) :
  NoDup (chan_locs rs) → Forall (chan_ok h) rs →
  ∃ h' : heap,
    _remove_zeros_saturated rs h = Ok (tt, h') ∧
    ∀ r d e, r ∈ rs → h !! ch_data r = Some d → h !! ch_err r = Some e →
      ∃ d' e', h' !! ch_data r = Some d' ∧ h' !! ch_err r = Some e' ∧
        ∀ p v, Nd.get d p = Some v →
          (v ≤ 0 ∨ 16383 ≤ v →
             Nd.get d' p = Some 0 ∧ Nd.get e' p = Some (-100)) ∧
          (¬ (v ≤ 0 ∨ 16383 ≤ v) →
             Nd.get d' p = Some v ∧ Nd.get e' p = Nd.get e p).
Proof.
  intros Hnd Hok.
  destruct (zs_stage rs h Hnd Hok) as (h' & Hrun & _ & Hrec).
  exists h'. split; [done|]. intros r d e Hr Hd He.
  destruct (Hrec r d e Hr Hd He) as [Hd' He'].
  exists (zs_data d), (zs_err d e). split; [done|]. split; [done|].
  intros p v Hp.
  assert (Hsh : Nd.shape d = Nd.shape e).
  { rewrite Forall_forall in Hok. specialize (Hok r Hr).
    unfold chan_ok in Hok. by rewrite Hd, He in Hok. }
  destruct (NdFacts.get_same_shape d e p v Hsh Hp) as [w Hw].
  unfold zs_data, zs_err.
  rewrite NdFacts.get_zip3, !NdFacts.get_map3, Hp, Hw. simpl.
  split; intros Hv.
  - apply invalid_spec in Hv. by rewrite Hv.
  - destruct (invalid v) eqn:Hi; [|done].
    apply invalid_spec in Hi. done.
Qed.

(** C10: [_remove_zeros_saturated] is idempotent: run on its own output it
    returns and leaves every array as the first run left it. *)
Theorem remove_zeros_saturated_idempotent rs (h : heap) :
  NoDup (chan_locs rs) → Forall (chan_ok h) rs →
  ∃ h1 : heap,
    _remove_zeros_saturated rs h = Ok (tt, h1) ∧
    _remove_zeros_saturated rs h1 = Ok (tt, h1).
Proof.
  intros Hnd Hok.
  destruct (zs_stage rs h Hnd Hok) as (h1 & Hrun & Hframe & Hrec).
  exists h1. split; [done|].
  assert (Hinv : ∀ r, r ∈ rs → ∃ d e,
            Nd.shape d = Nd.shape e ∧
            h1 !! ch_data r = Some (zs_data d) ∧
            h1 !! ch_err r = Some (zs_err d e)).
  { intros r Hr. rewrite Forall_forall in Hok. specialize (Hok r Hr).
    unfold chan_ok in Hok.
    destruct (h !! ch_data r) as [d|] eqn:Hd; [|done].
    destruct (h !! ch_err r) as [e|] eqn:He; [|done].
    exists d, e. split; [done|]. by apply Hrec. }
  destruct (zs_stage rs h1 Hnd) as (h2 & Hrun2 & Hframe2 & Hrec2).
  { apply Forall_forall. intros r Hr.
    destruct (Hinv r Hr) as (d & e & Hsh & Hd & He).
    unfold chan_ok. rewrite Hd, He. by apply zs_shapes. }
  rewrite Hrun2. do 2 f_equal. apply map_eq. intros l.
  destruct (decide (l ∈ chan_locs rs)) as [Hl|Hl]; [|by apply Hframe2].
  apply chan_locs_inv in Hl as (r & Hr & Hl).
  destruct (Hinv r Hr) as (d & e & Hsh & Hd & He).
  destruct (Hrec2 r _ _ Hr Hd He) as [Hd2 He2].
  rewrite zs_data_idem in Hd2. rewrite zs_err_idem in He2.
  destruct Hl as [->| ->]; congruence.
Qed.

Lemma remove_zeros_saturated_pixels_witness :
  ∃ (h' : heap) d' e',
    _remove_zeros_saturated sample_channels sample_heap = Ok (tt, h') ∧
    h' !! 1%positive = Some d' ∧ h' !! 2%positive = Some e' ∧
    Nd.get d' (0, 1, 2)%nat = Some 0 ∧ Nd.get e' (0, 1, 2)%nat = Some (-100).
Proof.
  destruct (remove_zeros_saturated_pixels sample_channels sample_heap)
    as (h' & Hrun & Hpix).
  - apply (bool_decide_unpack _). vm_compute. exact I.
  - repeat constructor.
  - destruct (Hpix (Channel 1 2 1) [[[120; 0; 20000]; [5; 1; 16400]]]
                [[[0; 0; 0]; [0; 0; 0]]]) as (d' & e' & Hd & He & Hp).
    + apply elem_of_cons. by left.
    + reflexivity.
    + reflexivity.
    + exists h', d', e'. split; [exact Hrun|].
      split; [exact Hd|]. split; [exact He|].
      apply (Hp (0, 1, 2)%nat 16400 eq_refl). lia.
Defined.

Lemma remove_zeros_saturated_idempotent_witness :
  ∃ h1 : heap,
    _remove_zeros_saturated sample_channels sample_heap = Ok (tt, h1) ∧
    _remove_zeros_saturated sample_channels h1 = Ok (tt, h1).
Proof.
  apply remove_zeros_saturated_idempotent.
  - apply (bool_decide_unpack _). vm_compute. exact I.
  - repeat constructor.
Defined.

(** ** §4.7: the cosmic-ray stage *)

Section cosmic.
Variable detect_cosmics : Nd.arr2 Z → Nd.arr2 bool * Nd.arr2 Z.
Import Nd NdFacts.

#[local] Abbreviation marked d e :=
  (zip3 (λ (b : bool) x, if b then py_True else x) (cosmic_mask detect_cosmics d) e).

(** One iteration of the loop: the cleaned stack goes to a new array, the
    error array is marked, and the data array is not written. *)
Lemma cr_step r rs (h : heap) d e :
  h !! ch_data r = Some d → h !! ch_err r = Some e →
  shape (cosmic_mask detect_cosmics d) = shape e →
  _remove_cosmic_rays detect_cosmics (r :: rs) h =
  _remove_cosmic_rays detect_cosmics rs
    (<[ch_err r := marked d e]>
       (<[fresh (dom h) := map snd (map detect_cosmics d)]> h)).
Proof.
  intros Hd He Hsh.
  assert (Hfresh : fresh (dom h) ≠ ch_err r).
  { intros Heq. apply (is_fresh (dom h)). rewrite Heq.
    apply elem_of_dom. by rewrite He. }
  unfold _remove_cosmic_rays at 1. simpl for_each.
  unfold bind at 1. unfold bind at 1. unfold deref at 1. rewrite Hd.
  unfold bind at 1. unfold alloc at 1. cbv zeta.
  unfold assign_where at 1. unfold bind at 1. unfold deref at 1.
  rewrite lookup_insert_ne by done. rewrite He.
  unfold bind at 1. unfold lift at 1, set_where at 1.
  fold (cosmic_mask detect_cosmics d). rewrite decide_True by done.
  unfold store at 1. reflexivity.
Qed.

(** The whole stage on records over pairwise distinct arrays: every
    record's data array is the array it was, and its error array holds
    [True], that is 1, wherever the mask is set. *)
Lemma cr_stage rs : ∀ h : heap,
  NoDup (chan_locs rs) → Forall (cosmic_ok detect_cosmics h) rs →
  ∃ h' : heap,
    _remove_cosmic_rays detect_cosmics rs h = Ok (tt, h') ∧
    (∀ l, l ∈ dom h → l ∉ map ch_err rs → h' !! l = h !! l) ∧
    (∀ r d e, r ∈ rs → h !! ch_data r = Some d → h !! ch_err r = Some e →
       h' !! ch_data r = Some d ∧ h' !! ch_err r = Some (marked d e)).
Proof.
  induction rs as [|r rs IH]; intros h Hnd Hok.
  - exists h. split; [done|]. split; [done|].
    intros r d e Hr. by apply elem_of_nil in Hr.
  - simpl in Hnd. apply NoDup_cons in Hnd as [Hd1 Hnd].
    apply NoDup_cons in Hnd as [He1 Hnd].
    apply Forall_cons in Hok as [Hr Hok].
    assert (Hne : ch_data r ≠ ch_err r).
    { intros Heq. apply Hd1. rewrite Heq. apply elem_of_cons. by left. }
    assert (Hd2 : ch_data r ∉ chan_locs rs).
    { intros Hin. apply Hd1. apply elem_of_cons. by right. }
    unfold cosmic_ok in Hr.
    destruct (h !! ch_data r) as [d|] eqn:Hd; [|done].
    destruct (h !! ch_err r) as [e|] eqn:He; [|done].
    rewrite (cr_step r rs h d e) by done.
    set (h1 := <[ch_err r := marked d e]>
                 (<[fresh (dom h) := map snd (map detect_cosmics d)]> h)).
    assert (Hold : ∀ l, l ∈ dom h → l ≠ ch_err r → h1 !! l = h !! l).
    { intros l Hl Hle. unfold h1. rewrite !lookup_insert_ne; [done| |done].
      intros <-. by apply (is_fresh (dom h)). }
    assert (Hdom : ∀ l, l ∈ dom h → l ∈ dom h1).
    { intros l Hl. unfold h1. rewrite !dom_insert. set_solver. }
    assert (Herrs : ∀ l, l ∈ map ch_err rs → l ∈ chan_locs rs).
    { intros l Hl. apply list_elem_of_fmap in Hl as (r' & -> & Hr').
      by apply chan_locs_elem. }
    rewrite Forall_forall in Hok.
    assert (Hin : ∀ r', r' ∈ rs →
              ch_data r' ∈ dom h ∧ ch_err r' ∈ dom h ∧
              ch_data r' ≠ ch_err r ∧ ch_err r' ≠ ch_err r).
    { intros r' Hr'. specialize (Hok r' Hr'). unfold cosmic_ok in Hok.
      apply chan_locs_elem in Hr' as [? ?].
      destruct (h !! ch_data r') eqn:?; [|done].
      destruct (h !! ch_err r') eqn:?; [|done].
      rewrite !elem_of_dom. repeat split; eauto; intros Heq; by rewrite Heq in *. }
    destruct (IH h1 Hnd) as (h' & Hrun & Hframe & Hrec).
    { apply Forall_forall. intros r' Hr'.
      destruct (Hin r' Hr') as (? & ? & ? & ?).
      specialize (Hok r' Hr'). unfold cosmic_ok in *.
      by rewrite !Hold. }
    exists h'. split; [done|]. split.
    + intros l Hl Hnot. rewrite fmap_cons in Hnot.
      apply not_elem_of_cons in Hnot as [? ?].
      rewrite Hframe by auto. by apply Hold.
    + intros r0 d0 e0 Hr0 Hd0 He0. apply elem_of_cons in Hr0 as [->|Hr0].
      * assert (ch_data r ∈ dom h) by (apply elem_of_dom; eauto).
        assert (ch_err r ∈ dom h) by (apply elem_of_dom; eauto).
        rewrite !Hframe by (try apply Hdom; try done; intros ?%Herrs; done).
        rewrite Hold by done. unfold h1. rewrite lookup_insert_eq.
        rewrite Hd in Hd0. rewrite He in He0. by simplify_eq.
      * destruct (Hin r0 Hr0) as (? & ? & ? & ?).
        apply Hrec; [done|..]; by rewrite Hold.
Qed.

(** For every record the stage processes, the data array is unchanged and
    the error array holds 1, not [__missing__], at every pixel where the
    detection mask is set. *)
Lemma remove_cosmic_rays_general rs (h : heap) :
  NoDup (chan_locs rs) → Forall (cosmic_ok detect_cosmics h) rs →
  ∃ h' : heap,
    _remove_cosmic_rays detect_cosmics rs h = Ok (tt, h') ∧
    ∀ r d e, r ∈ rs → h !! ch_data r = Some d → h !! ch_err r = Some e →
      h' !! ch_data r = Some d ∧
      ∃ e', h' !! ch_err r = Some e' ∧
        ∀ p, get (cosmic_mask detect_cosmics d) p = Some true →
             get e' p = Some 1 ∧ get e' p ≠ Some __missing__.
Proof.
  intros Hnd Hok.
  destruct (cr_stage rs h Hnd Hok) as (h' & Hrun & _ & Hrec).
  exists h'. split; [done|]. intros r d e Hr Hd He.
  destruct (Hrec r d e Hr Hd He) as [Hd' He'].
  split; [done|]. exists (marked d e). split; [done|].
  intros p Hp.
  assert (Hsh : shape (cosmic_mask detect_cosmics d) = shape e).
  { rewrite Forall_forall in Hok. specialize (Hok r Hr).
    unfold cosmic_ok in Hok. by rewrite Hd, He in Hok. }
  destruct (get_same_shape _ e p true Hsh Hp) as [x Hx].
  rewrite get_zip3, Hp, Hx. split; [done|]. by intros [=].
Qed.

End cosmic.

(** ** §4.2 and §4.7 on the samples *)

(** C4: without [retain], [_remove_dark_current] clamps on [data <= 0],
    not on [data < 0].  On the sample channel the darkest pixel equals the
    pedestal, so it holds 0 after the subtraction (as the run with [retain]
    shows, which leaves the error array untouched); the run without
    [retain] marks that pixel missing although its value is not negative. *)
Theorem remove_dark_current_marks_zero_pixel :
  ∃ (h_keep h_clamp : heap) dk ek dc ec,
    _remove_dark_current sample_median dark_meta dark_channels true dark_heap
      = Ok (tt, h_keep) ∧
    _remove_dark_current sample_median dark_meta dark_channels false dark_heap
      = Ok (tt, h_clamp) ∧
    h_keep !! 1%positive = Some dk ∧ h_keep !! 2%positive = Some ek ∧
    h_clamp !! 1%positive = Some dc ∧ h_clamp !! 2%positive = Some ec ∧
    Nd.get dk (0, 0, 0)%nat = Some 0 ∧ Nd.get ek (0, 0, 0)%nat = Some 0 ∧
    Nd.get dc (0, 0, 0)%nat = Some 0 ∧ Nd.get ec (0, 0, 0)%nat = Some (-100).
Proof.
  eexists _, _, _, _, _, _.
  split; [vm_compute; reflexivity|].
  split; [vm_compute; reflexivity|].
  repeat split; vm_compute; reflexivity.
Qed.

(** C1: [_remove_cosmic_rays] stores [True] into the error array where the
    detection mask is set.  On the sample channel the hit at exposure 0,
    row 0, column 1 leaves the error value 1 there, not -100. *)
Theorem remove_cosmic_rays_error_value :
  ∃ (h' : heap) e',
    _remove_cosmic_rays sample_detect cosmic_channels cosmic_heap = Ok (tt, h') ∧
    h' !! 2%positive = Some e' ∧
    Nd.get (map (λ s, (sample_detect s).1) [[[5; 2000]]; [[7; 9]]]) (0, 0, 1)%nat
      = Some true ∧
    Nd.get e' (0, 0, 1)%nat = Some 1 ∧
    Nd.get e' (0, 0, 1)%nat ≠ Some __missing__.
Proof.
  eexists _, _.
  split; [vm_compute; reflexivity|].
  split; [vm_compute; reflexivity|].
  repeat split; vm_compute; congruence.
Qed.

(** C2: [_remove_cosmic_rays] binds the stack of cleaned slices to its
    local name only.  On the sample channel the record's data array is,
    after the stage, still the array it was given, and differs from the
    stack of cleaned slices. *)
Theorem remove_cosmic_rays_data_untouched :
  ∃ h' : heap,
    _remove_cosmic_rays sample_detect cosmic_channels cosmic_heap = Ok (tt, h') ∧
    h' !! 1%positive = cosmic_heap !! 1%positive ∧
    h' !! 1%positive = Some [[[5; 2000]]; [[7; 9]]] ∧
    map (λ s, (sample_detect s).2) [[[5; 2000]]; [[7; 9]]] = [[[5; 0]]; [[7; 9]]] ∧
    h' !! 1%positive ≠ Some (map (λ s, (sample_detect s).2) [[[5; 2000]]; [[7; 9]]]).
Proof.
  eexists. split; [vm_compute; reflexivity|].
  repeat split; vm_compute; congruence.
Qed.

(** ** §4.3: the geometry resolver *)

Lemma datetime_leb_spec a b : datetime_leb a b = true ↔ on_or_before a b.
Proof.
  unfold datetime_leb, datetime_ltb, on_or_before.
  destruct (year b <? year a) eqn:H1; simpl.
  { apply Z.ltb_lt in H1. split; [done|lia]. }
  apply Z.ltb_ge in H1.
  destruct (year a <? year b) eqn:H2; simpl.
  { apply Z.ltb_lt in H2. split; [lia|done]. }
  apply Z.ltb_ge in H2.
  destruct (month b <? month a) eqn:H3; simpl.
  { apply Z.ltb_lt in H3. split; [done|lia]. }
  apply Z.ltb_ge in H3.
  destruct (month a <? month b) eqn:H4; simpl.
  { apply Z.ltb_lt in H4. split; [lia|done]. }
  apply Z.ltb_ge in H4.
  rewrite negb_true_iff, Z.ltb_ge. lia.
Qed.

(** C9: the vertical label is "middle" whenever the date is on or before
    2008-01-18; otherwise "top" if the Y-window starts at 512 or above,
    "bottom" if it ends at 512 or below, else "both".  The horizontal label
    is "right" if the X-window starts at 1024 or above, "left" if it ends
    below 1024, else "both".  The three documented calls give
    ("middle","left"), ("top","right") and ("both","both"). *)
Theorem calculate_detectors_labels :
  (∀ date ys yn xs xw,
     let r := _calculate_detectors date ys yn xs xw in
     (on_or_before date (Datetime 2008 1 18) → r.1 = "middle") ∧
     (¬ on_or_before date (Datetime 2008 1 18) → 512 ≤ ys → r.1 = "top") ∧
     (¬ on_or_before date (Datetime 2008 1 18) → ys < 512 → ys + yn ≤ 512 →
        r.1 = "bottom") ∧
     (¬ on_or_before date (Datetime 2008 1 18) → ys < 512 → 512 < ys + yn →
        r.1 = "both") ∧
     (1024 ≤ xs → r.2 = "right") ∧
     (xs < 1024 → xs + xw < 1024 → r.2 = "left") ∧
     (xs < 1024 → 1024 ≤ xs + xw → r.2 = "both")) ∧
  _calculate_detectors (Datetime 2008 1 10) 0 (100 - 0) 0 (100 - 0)
    = ("middle", "left") ∧
  _calculate_detectors (Datetime 2015 1 1) 600 (700 - 600) 1200 (1300 - 1200)
    = ("top", "right") ∧
  _calculate_detectors (Datetime 2015 1 1) 400 (700 - 400) 900 (1200 - 900)
    = ("both", "both").
Proof.
  split; [|by vm_compute].
  intros date ys yn xs xw r. subst r. unfold _calculate_detectors. simpl.
  destruct (datetime_leb date (Datetime 2008 1 18)) eqn:Hd.
  - apply datetime_leb_spec in Hd.
    repeat split; try done;
      intros; destruct (xs >=? 1024) eqn:?, (xs + xw <? 1024) eqn:?; try done; lia.
  - assert (Hn : ¬ on_or_before date (Datetime 2008 1 18)).
    { rewrite <- datetime_leb_spec. by rewrite Hd. }
    repeat split; intros;
      destruct (ys >=? 512) eqn:?, (ys + yn <=? 512) eqn:?,
               (xs >=? 1024) eqn:?, (xs + xw <? 1024) eqn:?; try done; lia.
Qed.

Lemma calculate_detectors_labels_witness :
  (_calculate_detectors (Datetime 2015 6 30) 256 256 1000 48).1 = "bottom".
Proof.
  apply (proj1 calculate_detectors_labels (Datetime 2015 6 30) 256 256 1000 48).
  - rewrite <- datetime_leb_spec. vm_compute. discriminate.
  - lia.
  - lia.
Defined.

(** ** §4.4: the fetcher and its memo table *)

Section fetcher.
Implicit Types (net : archive) (w : world) (date : datetime).


(** What the probing loop leaves in the memo table. *)
Lemma probe_dates_memo net key pix_type detector top_bot left_right dates :
  ∀ w r w',
    probe_dates net key pix_type detector top_bot left_right dates w = Ok (r, w') →
    pix_memo w' = match r with
                  | Some arr => <[key := arr]> (pix_memo w)
                  | None => pix_memo w
                  end.
Proof.
  induction dates as [|d dates IH]; intros w r w' Hrun; simpl in Hrun.
  - unfold ret in Hrun. by simplify_eq.
  - unfold bind at 1 in Hrun. unfold send at 1 in Hrun.
    destruct (status net _ =? 200).
    + unfold bind, send, memo_store, ret in Hrun. simpl in Hrun. by simplify_eq.
    + apply IH in Hrun. by rewrite Hrun.
Qed.

Lemma try_download_hit net date pix_type detector top_bot left_right w arr :
  pix_memo w !! _construct_hot_warm_pix_url date pix_type detector top_bot left_right
    = Some arr →
  _try_download_nearest_cal net date pix_type detector top_bot left_right w
    = Ok (Some arr, w).
Proof.
  intros Hhit. unfold _try_download_nearest_cal, bind, get_state.
  by rewrite Hhit.
Qed.

Lemma try_download_memo net date pix_type detector top_bot left_right w r w' :
  _try_download_nearest_cal net date pix_type detector top_bot left_right w
    = Ok (r, w') →
  (∀ arr, r = Some arr →
     pix_memo w' !! _construct_hot_warm_pix_url date pix_type detector top_bot left_right
       = Some arr) ∧
  (∀ k a, pix_memo w !! k = Some a → pix_memo w' !! k = Some a).
Proof.
  unfold _try_download_nearest_cal. unfold bind at 1. unfold get_state.
  set (key := _construct_hot_warm_pix_url date pix_type detector top_bot left_right).
  destruct (pix_memo w !! key) as [arr0|] eqn:Hkey.
  - unfold ret. intros ?; simplify_eq. split; [by intros ? [= <-]|done].
  - unfold bind at 1. unfold _get_cal_dates. unfold bind at 1. unfold send, lift.
    destruct (parse_links _) as [ds|]; [|done].
    intros Hrun. apply probe_dates_memo in Hrun. simpl in Hrun.
    rewrite Hrun. split.
    + intros arr ->. apply lookup_insert_eq.
    + intros k a Hk. destruct r as [arr|]; [|done].
      rewrite lookup_insert_ne; [done|]. intros <-. congruence.
Qed.

Lemma fetch_step_memo w w' k a :
  fetch_step w w' → pix_memo w !! k = Some a → pix_memo w' !! k = Some a.
Proof.
  intros [net date pt det tb lr w0 r w0' Hrun|net yw xw w0 r w0' Hrun] Hk.
  - by eapply try_download_memo.
  - unfold _get_dusty_array, bind, send, ret in Hrun. by simplify_eq.
Qed.

Lemma fetch_steps_memo w w' k a :
  rtc fetch_step w w' → pix_memo w !! k = Some a → pix_memo w' !! k = Some a.
Proof.
  induction 1 as [|w1 w2 w3 Hstep _ IH]; [done|].
  intros Hk. apply IH. by eapply fetch_step_memo.
Qed.

End fetcher.

(** C6, for the defect types served by the memoized fetcher (hot, warm):
    once a fetch has returned a bitmap, a fetch with the same arguments
    made at any later point of the process, after any number of other
    fetches and whatever the archive then answers, returns that bitmap and
    leaves the state as it found it, so it sends no request.  The dusty
    map has no such cache: every call of [_get_dusty_array], in any state
    and so also after any number of earlier calls, returns with one
    retrieval request more in the history and the memo table as it was. *)
Theorem try_download_memoized net net' date pix_type detector top_bot left_right
    w w1 w2 arr :
  _try_download_nearest_cal net date pix_type detector top_bot left_right w
    = Ok (Some arr, w1) →
  rtc fetch_step w1 w2 →
  _try_download_nearest_cal net' date pix_type detector top_bot left_right w2
    = Ok (Some arr, w2) ∧
  ∀ net'' y_window x_window w0, ∃ r,
    _get_dusty_array net'' y_window x_window w0 =
    Ok (r, World (pix_memo w0)
             (requests w0 ++ [UrlRetrieve (__darts__ +:+ "dp/dusty_pixels.sav")])).
Proof.
  intros Hfirst Hlater. split.
  - apply try_download_hit. eapply fetch_steps_memo; [exact Hlater|].
    destruct (try_download_memo _ _ _ _ _ _ _ _ _ Hfirst) as [Hkey _].
    by apply Hkey.
  - intros net'' y_window x_window w0.
    exists (Bm.slice2 y_window.1 y_window.2 x_window.1 x_window.2
              (dp_data net'' (__darts__ +:+ "dp/dusty_pixels.sav"))).
    reflexivity.
Qed.

Lemma try_download_memoized_witness :
  _try_download_nearest_cal dead_net (Datetime 2015 1 1) "hp" "a" "bottom" "right"
    fetched_world = Ok (Some sample_tile, fetched_world) ∧
  ∀ net'' y_window x_window w0, ∃ r,
    _get_dusty_array net'' y_window x_window w0 =
    Ok (r, World (pix_memo w0)
             (requests w0 ++ [UrlRetrieve (__darts__ +:+ "dp/dusty_pixels.sav")])).
Proof.
  apply (try_download_memoized sample_net dead_net (Datetime 2015 1 1)
           "hp" "a" "bottom" "right" fresh_world fetched_world fetched_world).
  - vm_cast_no_check (eq_refl (Ok (Some sample_tile, fetched_world))).
  - apply rtc_refl.
Defined.

(** The dusty-pixel map is outside that guarantee, so C6 as stated for
    hot, warm and dusty fails: [_get_dusty_array] has no memo table, and a
    second call with the same arguments returns the same bitmap but sends
    one more retrieval request. *)
Lemma dusty_fetch_not_memoized :
  ∃ r w1 w2,
    _get_dusty_array sample_net (0, 2) (0, 3) fresh_world = Ok (r, w1) ∧
    _get_dusty_array sample_net (0, 2) (0, 3) w1 = Ok (r, w2) ∧
    requests w2 = requests w1 ++ [UrlRetrieve (__darts__ +:+ "dp/dusty_pixels.sav")] ∧
    requests w2 ≠ requests w1.
Proof.
  eexists _, _, _.
  split; [vm_compute; reflexivity|].
  split; [vm_compute; reflexivity|].
  split; [vm_compute; reflexivity|].
  vm_compute. discriminate.
Qed.

(** ** The calendar: [datetime] order and day counts agree *)








(** ** [list.sort(key=...)]: sorted, a permutation, and stable *)

Section sort_by.
Context {A : Type} (key : A → Z).







End sort_by.



#[local] Instance key_le_trans {A} (key : A → Z) : Transitive (key_le key).
Proof. intros x y z. unfold key_le. lia. Qed.

(** ** §4.4: the order of the probes *)

Section probes.
Variables (net : archive) (key pix_type detector top_bot left_right : string).

#[local] Abbreviation url d :=
  (_construct_hot_warm_pix_url d pix_type detector top_bot left_right).
#[local] Abbreviation refused := (λ d, status net (url d) ≠ 200).


End probes.





(** ** §4.5: the compositor *)

Lemma py_slice_empty {A} (start stop : Z) (l : list A) :
  0 ≤ stop ≤ start → Bm.py_slice start stop l = [].
Proof.
  intros H. unfold Bm.py_slice.
  destruct (start <? 0) eqn:H1; [apply Z.ltb_lt in H1; lia|].
  destruct (stop <? 0) eqn:H2; [apply Z.ltb_lt in H2; lia|].
  replace (Z.to_nat _) with 0%nat by lia. done.
Qed.

(** Whenever the end column, reduced modulo 2048, does not exceed the
    reduced start column, every row of the crop is empty. *)
Lemma get_pixel_map_no_columns net date pix_type detector y_window x_window
    w crop w' :
  x_window.2 mod 2048 ≤ x_window.1 mod 2048 →
  _get_pixel_map net date pix_type detector y_window x_window w = Ok (crop, w') →
  Forall (λ row, row = []) crop.
Proof.
  intros Hx. unfold _get_pixel_map. cbv zeta. unfold bind at 1.
  destruct (_download_calibration_data _ _ _ _ _ _ w) as [[arrays w1]|]; [|done].
  unfold bind at 1. unfold lift.
  destruct (glued_array arrays) as [canvas|]; [|done].
  unfold ret. intros [= <- <-]. unfold Bm.slice2.
  apply Forall_forall. intros row Hrow.
  apply list_elem_of_fmap in Hrow as (full & -> & _).
  apply py_slice_empty.
  pose proof (Z.mod_pos_bound x_window.2 2048). lia.
Qed.

(** ** §4.5: the compositor on the sample archive *)

(** C3: a tile whose fetch is absent is stored in the dict as [None], so
    the [zero_arr] default of [arrays.get] is not used and [None] itself is
    assigned to the quadrant: the canvas holds NaN there, not 0, and so
    does the crop.  Here the window straddles the midline on the right
    half, the top-right fetch is absent and the bottom-right one succeeds. *)
Theorem get_pixel_map_absent_tile :
  returns (_try_download_nearest_cal sample_net (Datetime 2015 1 1) "hp" "a" "top" "right")
    fresh_world (λ r, r = None) ∧
  returns (_download_calibration_data sample_net (Datetime 2015 1 1) "hp" "a" "both" "right")
    fresh_world
    (λ arrays,
       arrays !! "topright" = Some None ∧
       yields (glued_array arrays)
         (λ canvas,
            Bm.has_shape 1024 2048 canvas = true ∧
            Bm.has_shape 512 1024 (Bm.slice2 0 512 1024 2048 canvas) = true ∧
            forallb (forallb is_nan) (Bm.slice2 0 512 1024 2048 canvas) = true)) ∧
  returns (_get_pixel_map sample_net (Datetime 2015 1 1) "hp" "a" (400, 700) (1200, 1300))
    fresh_world
    (λ crop,
       Bm.has_shape 300 100 crop = true ∧
       Bm.get crop 0 0 = Some NaN ∧
       Bm.get crop 0 0 ≠ Some (Num 0)).
Proof.
  split; [vm_compute; reflexivity|].
  split; [vm_compute; auto|].
  vm_compute. repeat split; congruence.
Qed.

(** C8: the crop is [glued_array[y0:y1, x0 % 2048 : x1 % 2048]].  A window
    that ends on the canvas edge, or crosses it, has its end column reduced
    below its start column, and the crop has no columns at all: for the
    right half of a CCD, X range (1024, 2048), it is 512 x 0 rather than
    512 x 1024, and for the X range (2000, 2100) it is 100 x 0 rather than
    100 x 100. *)
Theorem get_pixel_map_window_lost :
  returns (_get_pixel_map sample_net (Datetime 2015 1 1) "hp" "a" (0, 512) (1024, 2048))
    fresh_world
    (λ crop, Bm.has_shape 512 0 crop = true ∧ Bm.has_shape 512 1024 crop = false) ∧
  returns (_get_pixel_map sample_net (Datetime 2015 1 1) "hp" "a" (100, 200) (2000, 2100))
    fresh_world
    (λ crop, Bm.has_shape 100 0 crop = true ∧ Bm.has_shape 100 100 crop = false).
Proof. split; vm_compute; auto. Qed.

(* ===================================================================== *)
(** * Part III: further properties of the stages, the fetcher and the
      compositor                                                          *)
(* ===================================================================== *)

#[local] Set Warnings "-clear-no-such-hyp".

(** ** §4.1: shapes, ranges and the shape error *)

(** X1: [_remove_zeros_saturated] keeps the stage-boundary invariant: on
    records over distinct arrays with [data.shape == error.shape] it
    returns, every record still has [data.shape == error.shape], each data
    array keeps its shape, and no array outside the records is touched. *)
Theorem remove_zeros_saturated_keeps_shapes rs (h : heap) :
  NoDup (chan_locs rs) → Forall (chan_ok h) rs →
  ∃ h' : heap,
    _remove_zeros_saturated rs h = Ok (tt, h') ∧
    Forall (chan_ok h') rs ∧
    (∀ r d, r ∈ rs → h !! ch_data r = Some d →
       ∃ d', h' !! ch_data r = Some d' ∧ Nd.shape d' = Nd.shape d) ∧
    (∀ l, l ∉ chan_locs rs → h' !! l = h !! l).
Proof.
  intros Hnd Hok.
  destruct (zs_stage rs h Hnd Hok) as (h' & Hrun & Hframe & Hrec).
  exists h'. split; [done|]. rewrite Forall_forall in Hok.
  split; [|split; [|done]].
  - apply Forall_forall. intros r Hr. specialize (Hok r Hr).
    unfold chan_ok in *.
    destruct (h !! ch_data r) as [d|] eqn:Hd; [|done].
    destruct (h !! ch_err r) as [e|] eqn:He; [|done].
    destruct (Hrec r d e Hr Hd He) as [-> ->]. by apply zs_shapes.
  - intros r d Hr Hd. specialize (Hok r Hr). unfold chan_ok in Hok.
    rewrite Hd in Hok. destruct (h !! ch_err r) as [e|] eqn:He; [|done].
    destruct (Hrec r d e Hr Hd He) as [-> _].
    exists (zs_data d). split; [done|]. apply NdFacts.shape_map3.
Qed.

Lemma remove_zeros_saturated_keeps_shapes_witness :
  ∃ h' : heap,
    _remove_zeros_saturated sample_channels sample_heap = Ok (tt, h') ∧
    Forall (chan_ok h') sample_channels.
Proof.
  destruct (remove_zeros_saturated_keeps_shapes sample_channels sample_heap)
    as (h' & Hrun & Hok & _).
  - apply (bool_decide_unpack _). vm_compute. exact I.
  - repeat constructor.
  - exists h'. split; [exact Hrun|exact Hok].
Defined.

(** X2: after [_remove_zeros_saturated] every data pixel lies in
    [0, 16383), and every pixel whose data value is 0 is marked -100 in the
    error array. *)
Theorem remove_zeros_saturated_range rs (h : heap) :
  NoDup (chan_locs rs) → Forall (chan_ok h) rs →
  ∃ h' : heap,
    _remove_zeros_saturated rs h = Ok (tt, h') ∧
    ∀ r d' e', r ∈ rs → h' !! ch_data r = Some d' → h' !! ch_err r = Some e' →
      ∀ p v, Nd.get d' p = Some v →
        0 ≤ v < 16383 ∧ (v = 0 → Nd.get e' p = Some (-100)).
Proof.
  intros Hnd Hok.
  destruct (zs_stage rs h Hnd Hok) as (h' & Hrun & _ & Hrec).
  exists h'. split; [done|]. intros r d' e' Hr Hd' He' p v Hp.
  rewrite Forall_forall in Hok. specialize (Hok r Hr). unfold chan_ok in Hok.
  destruct (h !! ch_data r) as [d|] eqn:Hd; [|done].
  destruct (h !! ch_err r) as [e|] eqn:He; [|done].
  destruct (Hrec r d e Hr Hd He) as [Hd2 He2].
  rewrite Hd' in Hd2. rewrite He' in He2. simplify_eq.
  unfold zs_data in Hp. rewrite NdFacts.get_map3 in Hp.
  destruct (Nd.get d p) as [v0|] eqn:Hv0; [|done]. simpl in Hp. simplify_eq.
  destruct (NdFacts.get_same_shape d e p v0 Hok Hv0) as [w Hw].
  unfold zs_err. rewrite NdFacts.get_zip3, NdFacts.get_map3, Hv0, Hw. simpl.
  destruct (invalid v0) eqn:Hi.
  - split; [lia|done].
  - assert (Hn : ¬ (v0 ≤ 0 ∨ 16383 ≤ v0)).
    { rewrite <- invalid_spec. by rewrite Hi. }
    split; [lia|]. intros ->. lia.
Qed.

Lemma remove_zeros_saturated_range_witness :
  ∃ h' : heap, _remove_zeros_saturated sample_channels sample_heap = Ok (tt, h').
Proof.
  destruct (remove_zeros_saturated_range sample_channels sample_heap)
    as (h' & Hrun & _).
  - apply (bool_decide_unpack _). vm_compute. exact I.
  - repeat constructor.
  - exists h'. exact Hrun.
Defined.



(** ** A loop over records with distinct arrays *)

Section over_records.
Variable body : channel → M heap unit.
Variables D E : channel → Nd.arr Z → Nd.arr Z → Nd.arr Z.
Variable ok : channel → Nd.arr Z → Nd.arr Z → Prop.

Hypothesis body_run : ∀ r (h : heap) d e,
  h !! ch_data r = Some d → h !! ch_err r = Some e →
  ch_data r ≠ ch_err r → ok r d e →
  body r h = Ok (tt, <[ch_err r := E r d e]> (<[ch_data r := D r d e]> h)).

Lemma for_each_records rs : ∀ h : heap,
  NoDup (chan_locs rs) →
  Forall (λ r, match h !! ch_data r, h !! ch_err r with
               | Some d, Some e => ok r d e
               | _, _ => False
               end) rs →
  ∃ h' : heap,
    for_each body rs h = Ok (tt, h') ∧
    (∀ l, l ∉ chan_locs rs → h' !! l = h !! l) ∧
    (∀ r d e, r ∈ rs → h !! ch_data r = Some d → h !! ch_err r = Some e →
       h' !! ch_data r = Some (D r d e) ∧ h' !! ch_err r = Some (E r d e)).
Proof.
  induction rs as [|r rs IH]; intros h Hnd Hok.
  - exists h. split; [done|]. split; [done|].
    intros r d e Hr. by apply elem_of_nil in Hr.
  - simpl in Hnd. apply NoDup_cons in Hnd as [Hd1 Hnd].
    apply NoDup_cons in Hnd as [He1 Hnd].
    apply Forall_cons in Hok as [Hr Hok].
    assert (Hne : ch_data r ≠ ch_err r).
    { intros Heq. apply Hd1. rewrite Heq. apply elem_of_cons. by left. }
    assert (Hd2 : ch_data r ∉ chan_locs rs).
    { intros Hin. apply Hd1. apply elem_of_cons. by right. }
    destruct (h !! ch_data r) as [d|] eqn:Hd; [|done].
    destruct (h !! ch_err r) as [e|] eqn:He; [|done].
    simpl for_each. unfold bind at 1. rewrite (body_run r h d e) by done.
    set (h1 := <[ch_err r := E r d e]> (<[ch_data r := D r d e]> h)).
    assert (Hfr : ∀ l, l ∈ chan_locs rs → h1 !! l = h !! l).
    { intros l Hl. unfold h1.
      rewrite !lookup_insert_ne; [done| |]; intros <-; done. }
    destruct (IH h1 Hnd) as (h' & Hrun & Hframe & Hrec).
    { apply Forall_forall. intros r' Hr'.
      rewrite Forall_forall in Hok. specialize (Hok r' Hr').
      apply chan_locs_elem in Hr' as [? ?]. by rewrite !Hfr. }
    exists h'. split; [done|]. split.
    + intros l Hl. simpl in Hl.
      apply not_elem_of_cons in Hl as [Hl1 Hl].
      apply not_elem_of_cons in Hl as [Hl2 Hl].
      rewrite Hframe by done. unfold h1. by rewrite !lookup_insert_ne.
    + intros r0 d0 e0 Hr0 Hd0 He0. apply elem_of_cons in Hr0 as [->|Hr0].
      * rewrite !Hframe by done. unfold h1.
        rewrite lookup_insert_ne, !lookup_insert_eq by done.
        rewrite Hd in Hd0. rewrite He in He0. by simplify_eq.
      * apply chan_locs_elem in Hr0 as Hin. destruct Hin as [Hi1 Hi2].
        apply Hrec; [done|..]; by rewrite Hfr.
Qed.

End over_records.

(** ** §4.2: the dark-current stage *)

Section dark.
Variable np_median : list Z → Z.
Variable meta : metadata.
Import Nd NdFacts.

(** The subtraction, whichever strategy is taken. *)
Lemma dark_subtract r (h : heap) d :
  h !! ch_data r = Some d →
  (let* ccd_xwidth := lift (meta_get meta ("TDETXW" +:+ str (ch_index r))) in
   if ccd_xwidth =? 1024
   then _remove_dark_current_full_ccd np_median (ch_data r) meta (ch_index r)
   else _remove_dark_current_part_ccd np_median (ch_data r)) h =
  match pedestal np_median meta r d with
  | Ok v => Ok (tt, <[ch_data r := map3 (λ x, x - v) d]> h)
  | Raise e => Raise e
  end.
Proof.
  intros Hd. unfold pedestal. unfold bind at 1. unfold lift at 1.
  destruct (meta_get meta ("TDETXW" +:+ str (ch_index r))) as [w|]; [|done].
  destruct (w =? 1024).
  - unfold _remove_dark_current_full_ccd. unfold bind at 1. unfold lift at 1.
    destruct (meta_get meta ("TDETX" +:+ str (ch_index r))) as [xs|]; [|done].
    unfold bind at 1. unfold deref at 1. rewrite Hd.
    unfold isub, bind, deref, store. by rewrite Hd.
  - unfold _remove_dark_current_part_ccd. unfold bind at 1. unfold deref at 1.
    rewrite Hd. unfold isub, bind, deref, store. by rewrite Hd.
Qed.

Lemma bind_assoc {S A B C} (m : M S A) (f : A → M S B) (g : B → M S C) s :
  bind (bind m f) g s = bind m (λ x, bind (f x) g) s.
Proof. unfold bind. by destruct (m s) as [[a s']|]. Qed.

#[local] Abbreviation shifted v d := (map3 (λ x, x - v) d).
#[local] Abbreviation clamped a := (map3 (λ x, if x <=? 0 then 0 else x) a).
#[local] Abbreviation flagged a e :=
  (zip3 (λ (b : bool) x, if b then __missing__ else x) (map3 (λ x, x <=? 0) a) e).

(** The stage on records over distinct arrays, without [retain]. *)
Lemma dark_stage_clamp rs (h : heap) :
  NoDup (chan_locs rs) → Forall (dark_ok np_median meta h) rs →
  ∃ h' : heap,
    _remove_dark_current np_median meta rs false h = Ok (tt, h') ∧
    (∀ l, l ∉ chan_locs rs → h' !! l = h !! l) ∧
    (∀ r d e, r ∈ rs → h !! ch_data r = Some d → h !! ch_err r = Some e →
       ∃ v, pedestal np_median meta r d = Ok v ∧
            h' !! ch_data r = Some (clamped (shifted v d)) ∧
            h' !! ch_err r = Some (flagged (shifted v d) e)).
Proof.
  intros Hnd Hok. unfold _remove_dark_current.
  edestruct (for_each_records
    (λ rec,
      let data := ch_data rec in
      let err := ch_err rec in
      let idx := ch_index rec in
      let* ccd_xwidth := lift (meta_get meta ("TDETXW" +:+ str idx)) in
      (if ccd_xwidth =? 1024
       then _remove_dark_current_full_ccd np_median data meta idx
       else _remove_dark_current_part_ccd np_median data) ;;
      if negb false then
        let* d := deref data in
        let negatives := Nd.map3 (λ x, x <=? 0) d in
        assign_where data negatives 0 ;;
        assign_where err negatives __missing__
      else ret tt)
    (λ r d e, match pedestal np_median meta r d with
              | Ok v => clamped (shifted v d) | Raise _ => d end)
    (λ r d e, match pedestal np_median meta r d with
              | Ok v => flagged (shifted v d) e | Raise _ => e end)
    (λ r d e, shape d = shape e ∧
              match pedestal np_median meta r d with
              | Ok _ => True | Raise _ => False end))
    as (h' & Hrun & Hframe & Hrec); [|exact Hnd|exact Hok|].
  - intros r h0 d e Hd He Hne [Hsh Hped]. cbv beta zeta.
    destruct (pedestal np_median meta r d) as [v|] eqn:Hv; [|done].
    rewrite <- bind_assoc. unfold bind at 1.
    rewrite (dark_subtract r h0 d Hd), Hv. change (negb false) with true.
    cbv iota.
    unfold bind at 1. unfold deref at 1. rewrite lookup_insert_eq.
    unfold bind at 1. unfold assign_where at 1.
    unfold bind at 1. unfold deref at 1. rewrite lookup_insert_eq.
    unfold bind at 1. unfold lift at 1, set_where at 1.
    rewrite shape_map3, decide_True by done.
    rewrite zip3_map3_left. unfold store at 1. rewrite insert_insert_eq.
    unfold assign_where. unfold bind at 1. unfold deref.
    rewrite lookup_insert_ne by done. rewrite He.
    unfold bind, lift, set_where.
    rewrite !shape_map3, decide_True by done. reflexivity.
  - exists h'. split; [done|]. split; [done|].
    intros r d e Hr Hd He. destruct (Hrec r d e Hr Hd He) as [Hd' He'].
    rewrite Forall_forall in Hok. specialize (Hok r Hr).
    unfold dark_ok in Hok. rewrite Hd, He in Hok. destruct Hok as [_ Hped].
    destruct (pedestal np_median meta r d) as [v|]; [|done].
    by exists v.
Qed.

(** The stage on records over distinct arrays, with [retain]. *)
Lemma dark_stage_retain rs (h : heap) :
  NoDup (chan_locs rs) → Forall (dark_ok np_median meta h) rs →
  ∃ h' : heap,
    _remove_dark_current np_median meta rs true h = Ok (tt, h') ∧
    (∀ l, l ∉ chan_locs rs → h' !! l = h !! l) ∧
    (∀ r d e, r ∈ rs → h !! ch_data r = Some d → h !! ch_err r = Some e →
       ∃ v, pedestal np_median meta r d = Ok v ∧
            h' !! ch_data r = Some (shifted v d) ∧
            h' !! ch_err r = Some e).
Proof.
  intros Hnd Hok. unfold _remove_dark_current.
  edestruct (for_each_records
    (λ rec,
      let data := ch_data rec in
      let err := ch_err rec in
      let idx := ch_index rec in
      let* ccd_xwidth := lift (meta_get meta ("TDETXW" +:+ str idx)) in
      (if ccd_xwidth =? 1024
       then _remove_dark_current_full_ccd np_median data meta idx
       else _remove_dark_current_part_ccd np_median data) ;;
      if negb true then
        let* d := deref data in
        let negatives := Nd.map3 (λ x, x <=? 0) d in
        assign_where data negatives 0 ;;
        assign_where err negatives __missing__
      else ret tt)
    (λ r d e, match pedestal np_median meta r d with
              | Ok v => shifted v d | Raise _ => d end)
    (λ r d e, e)
    (λ r d e, shape d = shape e ∧
              match pedestal np_median meta r d with
              | Ok _ => True | Raise _ => False end))
    as (h' & Hrun & Hframe & Hrec); [|exact Hnd|exact Hok|].
  - intros r h0 d e Hd He Hne [Hsh Hped]. cbv beta zeta.
    destruct (pedestal np_median meta r d) as [v|] eqn:Hv; [|done].
    rewrite <- bind_assoc. unfold bind at 1.
    rewrite (dark_subtract r h0 d Hd), Hv. change (negb true) with false.
    cbv iota. unfold ret. rewrite (insert_id _ (ch_err r) e); [done|].
    by rewrite lookup_insert_ne.
  - exists h'. split; [done|]. split; [done|].
    intros r d e Hr Hd He. destruct (Hrec r d e Hr Hd He) as [Hd' He'].
    rewrite Forall_forall in Hok. specialize (Hok r Hr).
    unfold dark_ok in Hok. rewrite Hd, He in Hok. destruct Hok as [_ Hped].
    destruct (pedestal np_median meta r d) as [v|]; [|done].
    by exists v.
Qed.

End dark.

(** X4: a missing window key stops [_remove_dark_current] with a
    [KeyError] naming that key: the width key [TDETXW<idx>] of the record's
    window, or, for a window of width 1024, its start key [TDETX<idx>]. *)
Theorem remove_dark_current_missing_key np_median (meta : metadata) r rs retain
    (h : heap) :
  (meta !! ("TDETXW" +:+ str (ch_index r)) = None →
   _remove_dark_current np_median meta (r :: rs) retain h
     = Raise (KeyError ("TDETXW" +:+ str (ch_index r)))) ∧
  (meta !! ("TDETXW" +:+ str (ch_index r)) = Some 1024 →
   meta !! ("TDETX" +:+ str (ch_index r)) = None →
   _remove_dark_current np_median meta (r :: rs) retain h
     = Raise (KeyError ("TDETX" +:+ str (ch_index r)))).
Proof.
  split.
  - intros Hw. unfold _remove_dark_current. simpl for_each.
    unfold bind at 1. unfold bind at 1. unfold lift, meta_get. by rewrite Hw.
  - intros Hw Hx. unfold _remove_dark_current. simpl for_each.
    unfold bind at 1. unfold bind at 1. unfold lift at 1, meta_get at 1.
    rewrite Hw. change (1024 =? 1024) with true. cbv iota.
    unfold bind at 1. unfold _remove_dark_current_full_ccd.
    unfold bind at 1. unfold lift, meta_get. by rewrite Hx.
Qed.

Lemma remove_dark_current_missing_key_witness :
  _remove_dark_current sample_median (<["TDETX1" := 0]> ∅) dark_channels false dark_heap
    = Raise (KeyError "TDETXW1").
Proof.
  apply (proj1 (remove_dark_current_missing_key sample_median
                  (<["TDETX1" := 0]> ∅) (Channel 1 2 1) [] false dark_heap)).
  vm_compute. reflexivity.
Defined.

(** The pedestal is the parameter's median of the record's values. *)
Lemma pedestal_of_values np_median (meta : metadata) r d :
  pedestal np_median meta r d =
  match pedestal_values meta r d with
  | Ok l => Ok (np_median l)
  | Raise e => Raise e
  end.
Proof.
  unfold pedestal, pedestal_values.
  destruct (meta_get meta ("TDETXW" +:+ str (ch_index r))) as [xw|]; [|done].
  destruct (xw =? 1024); [|done].
  by destruct (meta_get meta ("TDETX" +:+ str (ch_index r))).
Qed.

Lemma whole_pedestal_value np_median (meta : metadata) (h : heap) r d v :
  whole_pedestal np_median meta h r → h !! ch_data r = Some d →
  pedestal np_median meta r d = Ok v →
  ∃ l, pedestal_values meta r d = Ok l ∧ numpy_median l = Whole v.
Proof.
  unfold whole_pedestal. intros Hw Hd Hv. rewrite Hd in Hw.
  rewrite pedestal_of_values in Hv.
  destruct (pedestal_values meta r d) as [l|]; [|done].
  injection Hv as <-. by exists l.
Qed.

(** X5: with [retain], where numpy's median of each record's values (the
    quiet columns, or the lowest fiftieth of the sorted values) is a whole
    number [v], [_remove_dark_current] subtracts [v] from every pixel of
    the record's data array, keeps negative results as they are, and leaves
    every error array as it was. *)
Theorem remove_dark_current_retain np_median (meta : metadata) rs (h : heap) :
  NoDup (chan_locs rs) → Forall (dark_ok np_median meta h) rs →
  Forall (whole_pedestal np_median meta h) rs →
  ∃ h' : heap,
    _remove_dark_current np_median meta rs true h = Ok (tt, h') ∧
    ∀ r d e, r ∈ rs → h !! ch_data r = Some d → h !! ch_err r = Some e →
      ∃ l v d', pedestal_values meta r d = Ok l ∧ numpy_median l = Whole v ∧
        h' !! ch_data r = Some d' ∧ h' !! ch_err r = Some e ∧
        ∀ p x, Nd.get d p = Some x → Nd.get d' p = Some (x - v).
Proof.
  intros Hnd Hok Hwhole.
  destruct (dark_stage_retain np_median meta rs h Hnd Hok) as (h' & Hrun & _ & Hrec).
  exists h'. split; [done|]. intros r d e Hr Hd He.
  destruct (Hrec r d e Hr Hd He) as (v & Hv & Hd' & He').
  rewrite Forall_forall in Hwhole.
  destruct (whole_pedestal_value np_median meta h r d v (Hwhole r Hr) Hd Hv)
    as (l & Hl & Hmed).
  exists l, v, (Nd.map3 (λ x, x - v) d). repeat split; try done.
  intros p x Hp. by rewrite NdFacts.get_map3, Hp.
Qed.

Lemma remove_dark_current_retain_witness :
  ∃ h' d',
    _remove_dark_current sample_median dark_meta dark_channels true dark_heap
      = Ok (tt, h') ∧
    numpy_median [100] = Whole 100 ∧
    h' !! 1%positive = Some d' ∧
    Nd.get d' (0, 0, 1)%nat = Some 30.
Proof.
  destruct (remove_dark_current_retain sample_median dark_meta dark_channels dark_heap)
    as (h' & Hrun & Hrec).
  - apply (bool_decide_unpack _). vm_compute. exact I.
  - constructor; [|constructor]. vm_compute. split; [reflexivity|exact I].
  - constructor; [|constructor]. vm_compute. reflexivity.
  - destruct (Hrec (Channel 1 2 1) [[100 :: replicate 49 130]] [[replicate 50 0]])
      as (l & v & d' & Hl & Hmed & Hd' & _ & Hpix).
    + apply list_elem_of_singleton. reflexivity.
    + reflexivity.
    + reflexivity.
    + injection Hl as <-. injection Hmed as <-.
      exists h', d'. split; [exact Hrun|]. split; [reflexivity|].
      split; [exact Hd'|]. apply (Hpix (0, 0, 1)%nat 130). reflexivity.
Defined.

(** X6: without [retain], where numpy's median of each record's values is
    a whole number [v], after [_remove_dark_current] every data pixel is the
    value less [v] floored at 0, so no data pixel is negative, and the error
    array holds -100 exactly at the pixels whose subtracted value is 0 or
    less, its other pixels being unchanged. *)
Theorem remove_dark_current_floor np_median (meta : metadata) rs (h : heap) :
  NoDup (chan_locs rs) → Forall (dark_ok np_median meta h) rs →
  Forall (whole_pedestal np_median meta h) rs →
  ∃ h' : heap,
    _remove_dark_current np_median meta rs false h = Ok (tt, h') ∧
    ∀ r d e, r ∈ rs → h !! ch_data r = Some d → h !! ch_err r = Some e →
      ∃ l v d' e', pedestal_values meta r d = Ok l ∧ numpy_median l = Whole v ∧
        h' !! ch_data r = Some d' ∧ h' !! ch_err r = Some e' ∧
        ∀ p x, Nd.get d p = Some x →
          Nd.get d' p = Some (Z.max 0 (x - v)) ∧
          Nd.get e' p = if x - v <=? 0 then Some (-100) else Nd.get e p.
Proof.
  intros Hnd Hok Hwhole.
  destruct (dark_stage_clamp np_median meta rs h Hnd Hok) as (h' & Hrun & _ & Hrec).
  exists h'. split; [done|]. intros r d e Hr Hd He.
  destruct (Hrec r d e Hr Hd He) as (v & Hv & Hd' & He').
  rewrite Forall_forall in Hwhole.
  destruct (whole_pedestal_value np_median meta h r d v (Hwhole r Hr) Hd Hv)
    as (l & Hl & Hmed).
  eexists l, v, _, _. split; [done|]. split; [done|].
  split; [exact Hd'|]. split; [exact He'|].
  intros p x Hp.
  assert (Hsh : Nd.shape d = Nd.shape e).
  { rewrite Forall_forall in Hok. specialize (Hok r Hr).
    unfold dark_ok in Hok. rewrite Hd, He in Hok. tauto. }
  destruct (NdFacts.get_same_shape d e p x Hsh Hp) as [w Hw].
  rewrite NdFacts.get_zip3, !NdFacts.get_map3, Hp, Hw. simpl.
  destruct (x - v <=? 0) eqn:Hx; (split; [f_equal; lia|done]).
Qed.

Lemma remove_dark_current_floor_witness :
  ∃ h' d' e',
    _remove_dark_current sample_median dark_meta dark_channels false dark_heap
      = Ok (tt, h') ∧
    numpy_median [100] = Whole 100 ∧
    h' !! 1%positive = Some d' ∧ h' !! 2%positive = Some e' ∧
    Nd.get d' (0, 0, 0)%nat = Some 0 ∧ Nd.get e' (0, 0, 0)%nat = Some (-100) ∧
    Nd.get d' (0, 0, 1)%nat = Some 30 ∧ Nd.get e' (0, 0, 1)%nat = Some 0.
Proof.
  destruct (remove_dark_current_floor sample_median dark_meta dark_channels dark_heap)
    as (h' & Hrun & Hrec).
  - apply (bool_decide_unpack _). vm_compute. exact I.
  - constructor; [|constructor]. vm_compute. split; [reflexivity|exact I].
  - constructor; [|constructor]. vm_compute. reflexivity.
  - destruct (Hrec (Channel 1 2 1) [[100 :: replicate 49 130]] [[replicate 50 0]])
      as (l & v & d' & e' & Hl & Hmed & Hd' & He' & Hpix).
    + apply list_elem_of_singleton. reflexivity.
    + reflexivity.
    + reflexivity.
    + injection Hl as <-. injection Hmed as <-.
      exists h', d', e'. split; [exact Hrun|]. split; [reflexivity|].
      split; [exact Hd'|]. split; [exact He'|].
      destruct (Hpix (0, 0, 0)%nat 100 eq_refl) as [H0 H0'].
      destruct (Hpix (0, 0, 1)%nat 130 eq_refl) as [H1 H1'].
      repeat split; assumption.
Defined.

Lemma slice_cols_map3 {A B} (f : A → B) p0 p1 (a : Nd.arr A) :
  Nd.slice_cols p0 p1 (Nd.map3 f a) = Nd.map3 f (Nd.slice_cols p0 p1 a).
Proof.
  unfold Nd.slice_cols, Nd.map3. rewrite !map_map. apply map_ext; intros s.
  rewrite !map_map. apply map_ext; intros r.
  change (map f r) with (f <$> r).
  by rewrite <- fmap_drop, <- fmap_take.
Qed.

Lemma flatten_map3 {A B} (f : A → B) (a : Nd.arr A) :
  Nd.flatten (Nd.map3 f a) = map f (Nd.flatten a).
Proof.
  unfold Nd.flatten, Nd.map3. by rewrite !concat_map.
Qed.

(** X7: [_remove_dark_current_full_ccd] brings the median of the quiet
    columns to 0: for any median that commutes with shifting, and a data
    array with at least one pixel in the quiet columns of its window, the
    median of those columns after the subtraction is 0. *)
Theorem full_ccd_quiet_median_zero np_median (meta : metadata) data window
    (h : heap) d ccd_x_start :
  shift_equivariant np_median →
  h !! data = Some d →
  meta !! ("TDETX" +:+ str window) = Some ccd_x_start →
  Nd.flatten (Nd.slice_cols (quiet_columns ccd_x_start).1
                (quiet_columns ccd_x_start).2 d) ≠ [] →
  ∃ d',
    _remove_dark_current_full_ccd np_median data meta window h
      = Ok (tt, <[data := d']> h) ∧
    Nd.shape d' = Nd.shape d ∧
    np_median (Nd.flatten (Nd.slice_cols (quiet_columns ccd_x_start).1
                             (quiet_columns ccd_x_start).2 d')) = 0.
Proof.
  intros Heq Hd Hx Hne.
  set (q := Nd.flatten (Nd.slice_cols (quiet_columns ccd_x_start).1
                          (quiet_columns ccd_x_start).2 d)) in *.
  exists (Nd.map3 (λ x, x - np_median q) d). split; [|split].
  - unfold _remove_dark_current_full_ccd. unfold bind at 1.
    unfold lift, meta_get. rewrite Hx.
    unfold bind at 1. unfold deref at 1. rewrite Hd.
    unfold isub, bind, deref, store. by rewrite Hd.
  - apply NdFacts.shape_map3.
  - rewrite slice_cols_map3, flatten_map3. fold q.
    rewrite Heq by done. lia.
Qed.

Lemma merge_sort_shift v (l : list Z) :
  merge_sort Z.le (map (λ x, x - v) l) = map (λ x, x - v) (merge_sort Z.le l).
Proof.
  apply (Sorted_unique Z.le).
  - apply Sorted_merge_sort. apply _.
  - apply (Sorted_fmap (λ x, x - v) Z.le Z.le).
    + intros x y Hxy. lia.
    + apply Sorted_merge_sort. apply _.
  - rewrite merge_sort_Permutation.
    change (map (λ x, x - v) l) with ((λ x, x - v) <$> l).
    change (map (λ x, x - v) (merge_sort Z.le l))
      with ((λ x, x - v) <$> merge_sort Z.le l).
    by rewrite merge_sort_Permutation.
Qed.

Lemma sample_median_shift : shift_equivariant sample_median.
Proof.
  intros l v Hl. unfold sample_median.
  rewrite merge_sort_shift, length_map.
  change (map (λ x, x - v) (merge_sort Z.le l))
    with ((λ x, x - v) <$> merge_sort Z.le l).
  rewrite list_lookup_fmap.
  destruct (merge_sort Z.le l !! (length l / 2)%nat) as [m|] eqn:Hm; [done|].
  apply lookup_ge_None in Hm.
  rewrite (Permutation_length (merge_sort_Permutation Z.le l)) in Hm.
  assert (0 < length l)%nat by (destruct l; [done|simpl; lia]).
  pose proof (Nat.div_lt (length l) 2). lia.
Qed.

Lemma full_ccd_quiet_median_zero_witness :
  ∃ d',
    _remove_dark_current_full_ccd sample_median 1 dark_meta 1 dark_heap
      = Ok (tt, <[1%positive := d']> dark_heap) ∧
    Nd.shape d' = Nd.shape [[100 :: replicate 49 130]] ∧
    sample_median (Nd.flatten (Nd.slice_cols 39 84 d')) = 0.
Proof.
  apply (full_ccd_quiet_median_zero sample_median dark_meta 1%positive 1
           dark_heap [[100 :: replicate 49 130]] 0).
  - exact sample_median_shift.
  - reflexivity.
  - reflexivity.
  - vm_compute. discriminate.
Defined.

(** ** §4.7: what the cosmic-ray stage leaves alone *)

(** X8: [_remove_cosmic_rays] writes to error arrays only: every array
    that existed before the stage and is not a record's error array is
    unchanged, each error array keeps its shape, and an error pixel where
    the detection mask is not set keeps its value. *)
Theorem remove_cosmic_rays_frame detect_cosmics rs (h : heap) :
  NoDup (chan_locs rs) → Forall (cosmic_ok detect_cosmics h) rs →
  ∃ h' : heap,
    _remove_cosmic_rays detect_cosmics rs h = Ok (tt, h') ∧
    (∀ l, l ∈ dom h → l ∉ map ch_err rs → h' !! l = h !! l) ∧
    ∀ r d e, r ∈ rs → h !! ch_data r = Some d → h !! ch_err r = Some e →
      ∃ e', h' !! ch_err r = Some e' ∧ Nd.shape e' = Nd.shape e ∧
        ∀ p, Nd.get (cosmic_mask detect_cosmics d) p = Some false →
             Nd.get e' p = Nd.get e p.
Proof.
  intros Hnd Hok.
  destruct (cr_stage detect_cosmics rs h Hnd Hok) as (h' & Hrun & Hframe & Hrec).
  exists h'. split; [done|]. split; [done|].
  intros r d e Hr Hd He. destruct (Hrec r d e Hr Hd He) as [_ He'].
  assert (Hsh : Nd.shape (cosmic_mask detect_cosmics d) = Nd.shape e).
  { rewrite Forall_forall in Hok. specialize (Hok r Hr).
    unfold cosmic_ok in Hok. by rewrite Hd, He in Hok. }
  eexists. split; [exact He'|]. split.
  - by apply NdFacts.shape_zip3_mask.
  - intros p Hp.
    destruct (NdFacts.get_same_shape _ e p false Hsh Hp) as [x Hx].
    by rewrite NdFacts.get_zip3, Hp, Hx.
Qed.

Lemma remove_cosmic_rays_frame_witness :
  ∃ h' : heap,
    _remove_cosmic_rays sample_detect cosmic_channels cosmic_heap = Ok (tt, h') ∧
    h' !! 1%positive = cosmic_heap !! 1%positive.
Proof.
  destruct (remove_cosmic_rays_frame sample_detect cosmic_channels cosmic_heap)
    as (h' & Hrun & Hframe & _).
  - apply (bool_decide_unpack _). vm_compute. exact I.
  - constructor; [|constructor]. vm_compute. reflexivity.
  - exists h'. split; [exact Hrun|]. apply Hframe.
    + apply (bool_decide_unpack _). vm_compute. exact I.
    + apply (bool_decide_unpack _). vm_compute. exact I.
Defined.

(** ** §4.4: what the fetcher caches, and its edge cases *)

Lemma probe_dates_requests net key pix_type detector top_bot left_right dates :
  ∀ w r w',
    probe_dates net key pix_type detector top_bot left_right dates w = Ok (r, w') →
    requests w `prefix_of` requests w'.
Proof.
  induction dates as [|d dates IH]; intros w r w' Hrun; simpl in Hrun.
  - unfold ret in Hrun. by simplify_eq.
  - unfold bind at 1 in Hrun. unfold send at 1 in Hrun.
    destruct (status net _ =? 200).
    + unfold bind, send, memo_store, ret in Hrun. simpl in Hrun. simplify_eq.
      simpl. rewrite <- app_assoc. by apply prefix_app_r.
    + apply IH in Hrun. simpl in Hrun.
      etrans; [|exact Hrun]. by apply prefix_app_r.
Qed.

(** X9: a fetch changes the memo table by at most the entry of its own
    key: a returned bitmap is stored under the key of the requested
    arguments, an absent result is not cached, and no other entry is added,
    changed or removed.  The requests already sent stay as they are. *)
Theorem try_download_memo_delta net date pix_type detector top_bot left_right
    w r w' :
  _try_download_nearest_cal net date pix_type detector top_bot left_right w
    = Ok (r, w') →
  pix_memo w' =
    match r with
    | Some arr =>
        <[_construct_hot_warm_pix_url date pix_type detector top_bot left_right
            := arr]> (pix_memo w)
    | None => pix_memo w
    end ∧
  requests w `prefix_of` requests w'.
Proof.
  unfold _try_download_nearest_cal. cbv zeta. unfold bind at 1. unfold get_state.
  destruct (pix_memo w !! _) as [arr0|] eqn:Hkey.
  - unfold ret. intros ?; simplify_eq. split; [|done].
    symmetry. by apply insert_id.
  - unfold bind at 1. unfold _get_cal_dates. cbv zeta.
    unfold bind at 1. unfold send, lift.
    destruct (parse_links _) as [ds|]; [|done].
    intros Hrun. split.
    + by apply probe_dates_memo in Hrun.
    + apply probe_dates_requests in Hrun. simpl in Hrun.
      etrans; [|exact Hrun]. by apply prefix_app_r.
Qed.

Lemma try_download_memo_delta_witness :
  pix_memo fetched_world =
    <[_construct_hot_warm_pix_url (Datetime 2015 1 1) "hp" "a" "bottom" "right"
        := sample_tile]> (pix_memo fresh_world) ∧
  requests fresh_world `prefix_of` requests fetched_world.
Proof.
  apply (try_download_memo_delta sample_net (Datetime 2015 1 1)
           "hp" "a" "bottom" "right" fresh_world (Some sample_tile) fetched_world).
  vm_cast_no_check (eq_refl (Ok (Some sample_tile, fetched_world))).
Defined.











(** ** Bitmaps: blocks and slices *)

Section splice.
Context {A : Type}.
Implicit Types l m : list A.

Lemma splice_length l m i0 :
  (i0 + length m ≤ length l)%nat →
  length (take i0 l ++ m ++ drop (i0 + length m) l) = length l.
Proof. intros H. rewrite !length_app, length_take, length_drop. lia. Qed.

Lemma splice_lookup l m i0 i :
  (i0 + length m ≤ length l)%nat →
  (take i0 l ++ m ++ drop (i0 + length m) l) !! i =
  if decide (i0 ≤ i < i0 + length m)%nat then m !! (i - i0)%nat else l !! i.
Proof.
  intros H.
  assert (Hlt : length (take i0 l) = i0) by (rewrite length_take; lia).
  destruct (decide (i < i0)%nat) as [Hi|Hi].
  - rewrite lookup_app_l by lia. rewrite lookup_take_lt by done.
    by rewrite decide_False by lia.
  - rewrite lookup_app_r by lia. rewrite Hlt.
    destruct (decide (i - i0 < length m)%nat) as [Hm|Hm].
    + rewrite lookup_app_l by done. by rewrite decide_True by lia.
    + rewrite lookup_app_r by lia. rewrite lookup_drop.
      rewrite decide_False by lia. f_equal. lia.
Qed.
End splice.

Section bitmaps.
Implicit Types a t : bitmap.

Lemma has_shape_shaped rows cols t :
  Bm.has_shape rows cols t = true ↔ shaped rows cols t.
Proof.
  unfold Bm.has_shape, shaped.
  rewrite andb_true_iff, Nat.eqb_eq, forallb_forall, Forall_forall.
  split; intros [Hl Hr]; (split; [done|]); intros r Hin.
  - apply Nat.eqb_eq, Hr. by apply list_elem_of_In.
  - apply Nat.eqb_eq, Hr. by apply list_elem_of_In.
Qed.

Lemma shaped_row rows cols a r row :
  shaped rows cols a → a !! r = Some row → length row = cols.
Proof.
  intros [_ Hall] Hr. rewrite Forall_lookup in Hall. by eapply Hall.
Qed.

Lemma shaped_zeros rows cols : shaped rows cols (Bm.zeros rows cols).
Proof.
  unfold shaped, Bm.zeros. rewrite length_replicate. split; [done|].
  apply Forall_replicate. apply length_replicate.
Qed.

Lemma zeros_get rows cols r c :
  (r < rows)%nat → (c < cols)%nat →
  Bm.get (Bm.zeros rows cols) r c = Some (Num 0).
Proof.
  intros Hr Hc. unfold Bm.get, Bm.zeros.
  rewrite lookup_replicate_2 by done. by apply lookup_replicate_2.
Qed.

(** Pasting a block inside a bitmap keeps its shape, puts the block's
    cells at the block's place and leaves every other cell as it was. *)
Lemma paste_shaped rows cols nr nc r0 c0 t a :
  shaped rows cols a → shaped nr nc t →
  (r0 + nr ≤ rows)%nat → (c0 + nc ≤ cols)%nat →
  shaped rows cols (Bm.paste r0 c0 t a).
Proof.
  intros [Hla Hra] [Hlt Hrt] Hr Hc. unfold Bm.paste.
  assert (Hz : length (zip_with (Bm.paste_row c0) t (drop r0 a)) = length t).
  { rewrite length_zip_with, length_drop. lia. }
  split.
  - rewrite <- Hz. rewrite splice_length; [done|]. rewrite Hz. lia.
  - apply Forall_app. split; [by apply Forall_take|].
    apply Forall_app. split; [|by apply Forall_drop].
    apply Forall_lookup. intros i row Hrow.
    apply lookup_zip_with_Some in Hrow as (new & old & -> & Hnew & Hold).
    rewrite lookup_drop in Hold.
    rewrite Forall_lookup in Hra, Hrt.
    specialize (Hra _ _ Hold). specialize (Hrt _ _ Hnew).
    unfold Bm.paste_row. rewrite splice_length; lia.
Qed.

Lemma paste_get rows cols nr nc r0 c0 t a r c :
  shaped rows cols a → shaped nr nc t →
  (r0 + nr ≤ rows)%nat → (c0 + nc ≤ cols)%nat →
  (r < rows)%nat → (c < cols)%nat →
  Bm.get (Bm.paste r0 c0 t a) r c =
  if decide ((r0 ≤ r < r0 + nr)%nat ∧ (c0 ≤ c < c0 + nc)%nat)
  then Bm.get t (r - r0)%nat (c - c0)%nat
  else Bm.get a r c.
Proof.
  intros [Hla Hra] [Hlt Hrt] Hr Hc Hlr Hlc. unfold Bm.get, Bm.paste.
  assert (Hz : length (zip_with (Bm.paste_row c0) t (drop r0 a)) = length t).
  { rewrite length_zip_with, length_drop. lia. }
  rewrite <- Hz at 1. rewrite splice_lookup by (rewrite Hz; lia). rewrite Hz, Hlt.
  destruct (decide (r0 ≤ r < r0 + nr)%nat) as [Hin|Hout].
  - rewrite lookup_zip_with, lookup_drop.
    replace (r0 + (r - r0))%nat with r by lia.
    destruct (lookup_lt_is_Some_2 t (r - r0)%nat) as [new Hnew]; [lia|].
    destruct (lookup_lt_is_Some_2 a r) as [old Hold]; [lia|].
    rewrite Hnew, Hold. simpl.
    rewrite Forall_lookup in Hra, Hrt.
    specialize (Hra _ _ Hold). specialize (Hrt _ _ Hnew).
    unfold Bm.paste_row. rewrite splice_lookup by lia. rewrite Hrt.
    destruct (decide (c0 ≤ c < c0 + nc)%nat).
    + by rewrite decide_True by done.
    + by rewrite decide_False by tauto.
  - by rewrite decide_False by tauto.
Qed.

End bitmaps.

Section blocks.
Implicit Types a t : bitmap.

Lemma set_block_spec rows cols r0 r1 c0 c1 v a a' :
  shaped rows cols a →
  (r0 ≤ r1 ≤ rows)%nat → (c0 ≤ c1 ≤ cols)%nat →
  Bm.set_block r0 r1 c0 c1 v a = Ok a' →
  shaped rows cols a' ∧
  ∀ r c, (r < rows)%nat → (c < cols)%nat →
    Bm.get a' r c =
    if decide ((r0 ≤ r < r1)%nat ∧ (c0 ≤ c < c1)%nat)
    then block_cell v (r - r0)%nat (c - c0)%nat
    else Bm.get a r c.
Proof.
  intros Ha Hr Hc Hset.
  assert (∃ t, a' = Bm.paste r0 c0 t a ∧ shaped (r1 - r0) (c1 - c0) t ∧
               ∀ i j, (i < r1 - r0)%nat → (j < c1 - c0)%nat →
                      Bm.get t i j = block_cell v i j) as (t & -> & Ht & Hcell).
  { destruct v as [t|]; simpl in Hset.
    - destruct (Bm.has_shape (r1 - r0) (c1 - c0) t) eqn:Hs; [|done].
      simplify_eq. exists t. split; [done|]. split; [|done].
      by apply has_shape_shaped.
    - simplify_eq. eexists. split; [done|]. split.
      + unfold shaped. rewrite length_replicate. split; [done|].
        apply Forall_replicate. apply length_replicate.
      + intros i j Hi Hj. unfold Bm.get.
        rewrite lookup_replicate_2 by done. by apply lookup_replicate_2. }
  split.
  - eapply paste_shaped; [done|done|lia|lia].
  - intros r c Hlr Hlc.
    rewrite (paste_get rows cols (r1 - r0) (c1 - c0)) by (done || lia).
    destruct (decide ((r0 ≤ r < r1)%nat ∧ (c0 ≤ c < c1)%nat)) as [Hin|Hout].
    + rewrite decide_True by lia. apply Hcell; lia.
    + rewrite decide_False by lia. done.
Qed.

Lemma set_block_ok r0 r1 c0 c1 v a :
  (∀ t, v = Some t → Bm.has_shape (r1 - r0) (c1 - c0) t = true) →
  ∃ a', Bm.set_block r0 r1 c0 c1 v a = Ok a'.
Proof.
  intros Hv. destruct v as [t|]; simpl; [|by eexists].
  rewrite (Hv t eq_refl). by eexists.
Qed.

Lemma dict_get_fit (arrays : gmap string (option bitmap)) key t :
  tiles_fit arrays →
  key ∈ ["topleft"; "bottomright"; "bottomleft"; "topright"] →
  dict_get arrays key (Some (Bm.zeros 512 1024)) = Some t →
  Bm.has_shape 512 1024 t = true.
Proof.
  intros Hfit Hkey. unfold dict_get.
  destruct (arrays !! key) as [v|] eqn:Hk.
  - intros ->. by eapply Hfit.
  - intros [= <-]. apply has_shape_shaped, shaped_zeros.
Qed.

Lemma dict_get_cell (arrays : gmap string (option bitmap)) key i j :
  (i < 512)%nat → (j < 1024)%nat →
  block_cell (dict_get arrays key (Some (Bm.zeros 512 1024))) i j =
  match arrays !! key with
  | None => Some (Num 0)
  | Some None => Some NaN
  | Some (Some t) => Bm.get t i j
  end.
Proof.
  intros Hi Hj. unfold dict_get.
  destruct (arrays !! key) as [[t|]|]; try done.
  simpl. by apply zeros_get.
Qed.

End blocks.

(** ** §4.5: the canvas *)

(** Assembly succeeds on well-shaped tiles. *)
Lemma glued_array_ok (arrays : gmap string (option bitmap)) :
  tiles_fit arrays →
  ∃ canvas, glued_array arrays = Ok canvas ∧ shaped 1024 2048 canvas.
Proof.
  intros Hfit. unfold glued_array. cbv zeta.
  assert (Hk : ∀ key, key ∈ ["topleft"; "bottomright"; "bottomleft"; "topright"] →
            ∀ t, dict_get arrays key (Some (Bm.zeros 512 1024)) = Some t →
                 Bm.has_shape 512 1024 t = true).
  { intros key Hkey t. by apply dict_get_fit. }
  destruct (set_block_ok 0 512 0 1024 (dict_get arrays "topleft" (Some (Bm.zeros 512 1024)))
              (Bm.zeros 1024 2048)) as [a1 H1].
  { apply Hk. set_solver. }
  rewrite H1.
  destruct (set_block_ok 512 1024 1024 2048
              (dict_get arrays "bottomright" (Some (Bm.zeros 512 1024))) a1) as [a2 H2].
  { apply Hk. set_solver. }
  rewrite H2.
  destruct (set_block_ok 512 1024 0 1024
              (dict_get arrays "bottomleft" (Some (Bm.zeros 512 1024))) a2) as [a3 H3].
  { apply Hk. set_solver. }
  rewrite H3.
  destruct (set_block_ok 0 512 1024 2048
              (dict_get arrays "topright" (Some (Bm.zeros 512 1024))) a3) as [a4 H4].
  { apply Hk. set_solver. }
  exists a4. split; [done|].
  pose proof (shaped_zeros 1024 2048) as S0.
  apply (set_block_spec 1024 2048) in H1 as [S1 _]; [|done|lia|lia].
  apply (set_block_spec 1024 2048) in H2 as [S2 _]; [|done|lia|lia].
  apply (set_block_spec 1024 2048) in H3 as [S3 _]; [|done|lia|lia].
  by apply (set_block_spec 1024 2048) in H4 as [S4 _]; [|done|lia|lia].
Qed.

(** X13: the canvas never fails to assemble when every fetched tile is
    512 x 1024, whatever entries are absent or [None]; and an assembled
    canvas is 1024 x 2048. *)
Theorem glued_array_assembles (arrays : gmap string (option bitmap)) :
  tiles_fit arrays →
  ∃ canvas, glued_array arrays = Ok canvas ∧ shaped 1024 2048 canvas.
Proof. apply glued_array_ok. Qed.

Lemma glued_array_assembles_witness :
  ∃ canvas,
    glued_array (<["topright" := None]> (<["topleft" := Some sample_tile]> ∅))
      = Ok canvas ∧
    shaped 1024 2048 canvas.
Proof.
  apply glued_array_assembles.
  intros key t _ Hk.
  destruct (decide (key = "topright")) as [->|Hne1].
  - rewrite lookup_insert_eq in Hk. discriminate Hk.
  - rewrite lookup_insert_ne in Hk by done.
    destruct (decide (key = "topleft")) as [->|Hne2].
    + rewrite lookup_insert_eq in Hk. injection Hk as <-.
      vm_compute. reflexivity.
    + rewrite lookup_insert_ne, lookup_empty in Hk by done. discriminate Hk.
Defined.

Lemma mod_small_block n k : (n < k)%nat → (n mod k = n - 0)%nat.
Proof. intros H. rewrite Nat.mod_small by done. lia. Qed.

Lemma mod_second_block n k : (k ≤ n < 2 * k)%nat → (n mod k = n - k)%nat.
Proof.
  intros H. symmetry. apply (Nat.mod_unique n k 1); lia.
Qed.

(** The canvas, cell by cell. *)
Lemma glued_array_get (arrays : gmap string (option bitmap)) canvas :
  glued_array arrays = Ok canvas →
  ∀ r c, (r < 1024)%nat → (c < 2048)%nat →
    Bm.get canvas r c = quadrant_cell arrays r c.
Proof.
  unfold glued_array. cbv zeta.
  destruct (Bm.set_block 0 512 0 1024 _ _) as [a1|] eqn:H1; [|done].
  destruct (Bm.set_block 512 1024 1024 2048 _ _) as [a2|] eqn:H2; [|done].
  destruct (Bm.set_block 512 1024 0 1024 _ _) as [a3|] eqn:H3; [|done].
  intros H4.
  pose proof (shaped_zeros 1024 2048) as S0.
  apply (set_block_spec 1024 2048) in H1 as [S1 G1]; [|done|lia|lia].
  apply (set_block_spec 1024 2048) in H2 as [S2 G2]; [|done|lia|lia].
  apply (set_block_spec 1024 2048) in H3 as [S3 G3]; [|done|lia|lia].
  apply (set_block_spec 1024 2048) in H4 as [S4 G4]; [|done|lia|lia].
  intros r c Hr Hc. rewrite G4, G3, G2, G1 by done.
  unfold quadrant_cell, quadrant_key.
  destruct (decide (r < 512)%nat) as [Hr1|Hr1];
    destruct (decide (c < 1024)%nat) as [Hc1|Hc1].
  - rewrite (proj2 (Nat.ltb_lt r 512)), (proj2 (Nat.ltb_lt c 1024)) by done.
    rewrite (decide_False (P := _ ∧ (1024 ≤ c < 2048)%nat)) by lia.
    rewrite (decide_False (P := (512 ≤ r < 1024)%nat ∧ _)) by lia.
    rewrite (decide_False (P := (512 ≤ r < 1024)%nat ∧ _)) by lia.
    rewrite decide_True by lia.
    rewrite dict_get_cell by lia.
    rewrite <- (mod_small_block r 512), <- (mod_small_block c 1024) by done.
    reflexivity.
  - rewrite (proj2 (Nat.ltb_lt r 512)), (proj2 (Nat.ltb_ge c 1024)) by (done || lia).
    rewrite decide_True by lia.
    rewrite dict_get_cell by lia.
    rewrite <- (mod_small_block r 512), <- (mod_second_block c 1024) by lia.
    reflexivity.
  - rewrite (proj2 (Nat.ltb_ge r 512)), (proj2 (Nat.ltb_lt c 1024)) by (done || lia).
    rewrite (decide_False (P := (0 ≤ r < 512)%nat ∧ _)) by lia.
    rewrite decide_True by lia.
    rewrite dict_get_cell by lia.
    rewrite <- (mod_second_block r 512), <- (mod_small_block c 1024) by lia.
    reflexivity.
  - rewrite (proj2 (Nat.ltb_ge r 512)), (proj2 (Nat.ltb_ge c 1024)) by lia.
    rewrite (decide_False (P := (0 ≤ r < 512)%nat ∧ _)) by lia.
    rewrite (decide_False (P := _ ∧ (0 ≤ c < 1024)%nat)) by lia.
    rewrite decide_True by lia.
    rewrite dict_get_cell by lia.
    rewrite <- (mod_second_block r 512), <- (mod_second_block c 1024) by lia.
    reflexivity.
Qed.

(** X14: the compositor puts each fetched tile in the quadrant its dict
    key names and nothing else on the canvas: the cell at row [r], column
    [c] is the tile's cell at [(r mod 512, c mod 1024)] when the dict has a
    tile under the key of that quadrant, NaN when the entry is [None], and
    0 when the dict has no entry for the quadrant. *)
Theorem glued_array_cells (arrays : gmap string (option bitmap)) canvas :
  glued_array arrays = Ok canvas →
  ∀ r c, (r < 1024)%nat → (c < 2048)%nat →
    Bm.get canvas r c = quadrant_cell arrays r c.
Proof. apply glued_array_get. Qed.

(** ** §4.5: the dict of fetched tiles *)

Lemma fetch_row_dom net date pix_type detector vert lr_tuple :
  ∀ (retfiles arrays : gmap string (option bitmap)) w w',
    fetch_row net date pix_type detector vert lr_tuple retfiles w = Ok (arrays, w') →
    dom arrays = dom retfiles ∪ list_to_set (map (String.append vert) lr_tuple).
Proof.
  induction lr_tuple as [|horiz rest IH]; intros retfiles arrays w w' Hrun;
    simpl in Hrun.
  - unfold ret in Hrun. simplify_eq. simpl. set_solver.
  - unfold bind at 1 in Hrun.
    destruct (_try_download_nearest_cal _ _ _ _ _ _ w) as [[arr w1]|]; [|done].
    apply IH in Hrun. rewrite Hrun, dom_insert_L. simpl. set_solver.
Qed.

Lemma fetch_rows_dom net date pix_type detector tb_tuple lr_tuple :
  ∀ (retfiles arrays : gmap string (option bitmap)) w w',
    fetch_rows net date pix_type detector tb_tuple lr_tuple retfiles w
      = Ok (arrays, w') →
    dom arrays =
      dom retfiles
      ∪ list_to_set (flat_map (λ vert, map (String.append vert) lr_tuple) tb_tuple).
Proof.
  induction tb_tuple as [|vert rest IH]; intros retfiles arrays w w' Hrun;
    simpl in Hrun.
  - unfold ret in Hrun. simplify_eq. simpl. set_solver.
  - unfold bind at 1 in Hrun.
    destruct (fetch_row _ _ _ _ _ _ _ w) as [[files w1]|] eqn:Hrow; [|done].
    apply fetch_row_dom in Hrow. apply IH in Hrun.
    rewrite Hrun, Hrow. simpl. rewrite list_to_set_app_L. set_solver.
Qed.

(** The keys of the returned dict. *)
Lemma download_keys net date pix_type detector top_bot
    left_right w arrays w' :
  _download_calibration_data net date pix_type detector top_bot left_right w
    = Ok (arrays, w') →
  dom arrays =
    list_to_set
      (flat_map
         (λ vert, map (String.append vert)
                    (if decide (left_right = "both") then ["left"; "right"]
                     else [left_right]))
         (if decide (top_bot = "both") then ["top"; "bottom"] else [top_bot])).
Proof.
  unfold _download_calibration_data. cbv zeta. intros Hrun.
  apply fetch_rows_dom in Hrun. rewrite Hrun, dom_empty_L. set_solver.
Qed.

(** X15: the dict [_download_calibration_data] returns has one entry for
    every requested pair of a vertical and a horizontal label, "both"
    standing for its two labels, under the key that joins the two labels;
    the entry is there also when the tile could not be fetched, and there
    is no other entry. *)
Theorem download_calibration_data_keys net date pix_type detector top_bot
    left_right w arrays w' :
  _download_calibration_data net date pix_type detector top_bot left_right w
    = Ok (arrays, w') →
  dom arrays =
    list_to_set
      (flat_map
         (λ vert, map (String.append vert)
                    (if decide (left_right = "both") then ["left"; "right"]
                     else [left_right]))
         (if decide (top_bot = "both") then ["top"; "bottom"] else [top_bot])).
Proof. apply download_keys. Qed.

Lemma download_calibration_data_keys_witness :
  ∃ arrays w',
    _download_calibration_data dead_net (Datetime 2015 1 1) "hp" "a" "both" "right"
      fresh_world = Ok (arrays, w') ∧
    dom arrays = {["topright"; "bottomright"]}.
Proof.
  eexists _, _. split; [vm_compute; reflexivity|].
  erewrite (download_calibration_data_keys dead_net (Datetime 2015 1 1)
              "hp" "a" "both" "right" fresh_world).
  - vm_compute. reflexivity.
  - vm_compute. reflexivity.
Defined.

(** ** §4.5: the crop *)

Section slices.
Context {A : Type}.
Implicit Types l : list A.

Lemma py_slice_in_range (s e : Z) l :
  0 ≤ s ≤ e → e ≤ Z.of_nat (length l) →
  Bm.py_slice s e l = take (Z.to_nat (e - s)) (drop (Z.to_nat s) l).
Proof.
  intros Hs He. unfold Bm.py_slice.
  destruct (s <? 0) eqn:H1; [apply Z.ltb_lt in H1; lia|].
  destruct (e <? 0) eqn:H2; [apply Z.ltb_lt in H2; lia|].
  by rewrite !Z.min_l by lia.
Qed.

Lemma py_slice_elem (s e : Z) l x : x ∈ Bm.py_slice s e l → x ∈ l.
Proof.
  unfold Bm.py_slice. intros Hx.
  by apply subseteq_take, subseteq_drop in Hx.
Qed.

Lemma py_slice_elem_index (s e : Z) l x :
  0 ≤ s → 0 ≤ e → x ∈ Bm.py_slice s e l →
  ∃ i, l !! i = Some x ∧ s ≤ Z.of_nat i < e.
Proof.
  intros Hs He. unfold Bm.py_slice.
  destruct (s <? 0) eqn:H1; [apply Z.ltb_lt in H1; lia|].
  destruct (e <? 0) eqn:H2; [apply Z.ltb_lt in H2; lia|].
  intros Hx. apply elem_of_take in Hx as (k & Hk & Hlt).
  rewrite lookup_drop in Hk. eexists. split; [exact Hk|]. lia.
Qed.
End slices.

Lemma slice2_spec rows cols (a : bitmap) y0 y1 x0 x1 :
  shaped rows cols a →
  0 ≤ y0 ≤ y1 → y1 ≤ Z.of_nat rows → 0 ≤ x0 ≤ x1 → x1 ≤ Z.of_nat cols →
  shaped (Z.to_nat (y1 - y0)) (Z.to_nat (x1 - x0)) (Bm.slice2 y0 y1 x0 x1 a) ∧
  ∀ i j, (i < Z.to_nat (y1 - y0))%nat → (j < Z.to_nat (x1 - x0))%nat →
    Bm.get (Bm.slice2 y0 y1 x0 x1 a) i j
      = Bm.get a (Z.to_nat y0 + i)%nat (Z.to_nat x0 + j)%nat.
Proof.
  intros [Hla Hra] Hy Hy1 Hx Hx1. unfold Bm.slice2.
  rewrite (py_slice_in_range y0 y1 a) by lia.
  split; [split|].
  - rewrite length_map, length_take, length_drop. lia.
  - apply Forall_fmap. apply Forall_take, Forall_drop.
    eapply Forall_impl; [exact Hra|]. intros row Hrow. simpl in *.
    rewrite py_slice_in_range by lia.
    rewrite length_take, length_drop. lia.
  - intros i j Hi Hj. unfold Bm.get.
    change (map (Bm.py_slice x0 x1) ?l) with (Bm.py_slice (A := cell) x0 x1 <$> l).
    rewrite list_lookup_fmap, lookup_take_lt, lookup_drop by done.
    destruct (a !! (Z.to_nat y0 + i)%nat) as [row|] eqn:Hrow; [|done]. simpl.
    rewrite Forall_lookup in Hra. specialize (Hra _ _ Hrow).
    rewrite py_slice_in_range by lia.
    by rewrite lookup_take_lt, lookup_drop by done.
Qed.

(** X16: for a window inside the canvas rows whose columns lie within one
    canvas width ([x0] and [x1] have the same quotient by 2048), when the
    fetched tiles are 512 x 1024 [_get_pixel_map] returns a bitmap of
    exactly the requested shape, [(y1 - y0)] rows by [(x1 - x0)] columns,
    whose cell [(i, j)] is the canvas cell at row [y0 + i], column
    [x0 mod 2048 + j]. *)
Theorem get_pixel_map_crop net date pix_type detector (y_window x_window : Z * Z)
    w arrays w' :
  _download_calibration_data net date pix_type detector
    (_calculate_detectors date y_window.1 (y_window.2 - y_window.1)
       (x_window.1 mod 2048) (x_window.2 - x_window.1)).1
    (_calculate_detectors date y_window.1 (y_window.2 - y_window.1)
       (x_window.1 mod 2048) (x_window.2 - x_window.1)).2 w
    = Ok (arrays, w') →
  tiles_fit arrays →
  0 ≤ y_window.1 ≤ y_window.2 → y_window.2 ≤ 1024 →
  x_window.1 ≤ x_window.2 → x_window.1 / 2048 = x_window.2 / 2048 →
  ∃ crop,
    _get_pixel_map net date pix_type detector y_window x_window w = Ok (crop, w') ∧
    shaped (Z.to_nat (y_window.2 - y_window.1))
           (Z.to_nat (x_window.2 - x_window.1)) crop ∧
    ∀ i j, (i < Z.to_nat (y_window.2 - y_window.1))%nat →
           (j < Z.to_nat (x_window.2 - x_window.1))%nat →
      Bm.get crop i j =
      quadrant_cell arrays (Z.to_nat y_window.1 + i)%nat
                    (Z.to_nat (x_window.1 mod 2048) + j)%nat.
Proof.
  intros Hdl Hfit Hy Hy1 Hx Hq.
  destruct (glued_array_ok arrays Hfit) as (canvas & Hglue & Hshape).
  assert (Hw : x_window.2 mod 2048 - x_window.1 mod 2048
               = x_window.2 - x_window.1).
  { rewrite !Z.mod_eq by lia. rewrite Hq. lia. }
  pose proof (Z.mod_pos_bound x_window.1 2048 eq_refl) as Hb1.
  pose proof (Z.mod_pos_bound x_window.2 2048 eq_refl) as Hb2.
  destruct (slice2_spec 1024 2048 canvas y_window.1 y_window.2
              (x_window.1 mod 2048) (x_window.2 mod 2048) Hshape)
    as [Hcs Hcg]; [lia..|].
  rewrite Hw in Hcs, Hcg.
  exists (Bm.slice2 y_window.1 y_window.2 (x_window.1 mod 2048)
            (x_window.2 mod 2048) canvas).
  split; [|split; [done|]].
  - unfold _get_pixel_map. cbv zeta. unfold bind at 1. rewrite Hdl.
    unfold bind at 1. unfold lift. by rewrite Hglue.
  - intros i j Hi Hj. rewrite Hcg by done.
    apply (glued_array_get arrays canvas Hglue); lia.
Qed.

Lemma sample_arrays_fit : tiles_fit sample_arrays.
Proof.
  intros key t _ Hk. unfold sample_arrays in Hk.
  destruct (decide (key = "bottomright")) as [->|Hne1].
  - rewrite lookup_insert_eq in Hk. injection Hk as <-. vm_compute. reflexivity.
  - rewrite lookup_insert_ne in Hk by done.
    destruct (decide (key = "topright")) as [->|Hne2].
    + rewrite lookup_insert_eq in Hk. discriminate Hk.
    + rewrite lookup_insert_ne, lookup_empty in Hk by done. discriminate Hk.
Qed.

Lemma get_pixel_map_crop_witness :
  ∃ crop,
    _get_pixel_map sample_net (Datetime 2015 1 1) "hp" "a" (400, 700) (1200, 1300)
      fresh_world = Ok (crop, composed_world) ∧
    shaped 300 100 crop.
Proof.
  destruct (get_pixel_map_crop sample_net (Datetime 2015 1 1) "hp" "a"
              (400, 700) (1200, 1300) fresh_world sample_arrays composed_world)
    as (crop & Hrun & Hshape & _).
  - vm_cast_no_check (eq_refl (Ok (sample_arrays, composed_world))).
  - exact sample_arrays_fit.
  - simpl. lia.
  - simpl. lia.
  - simpl. lia.
  - reflexivity.
  - exists crop. split; [exact Hrun|exact Hshape].
Defined.

Lemma glued_array_cells_witness :
  ∃ canvas,
    glued_array sample_arrays = Ok canvas ∧
    Bm.get canvas 5 1500 = Some NaN ∧
    Bm.get canvas 512 1024 = Some (Num 1).
Proof.
  destruct (glued_array_ok sample_arrays sample_arrays_fit)
    as (canvas & Hglue & _).
  exists canvas. split; [exact Hglue|].
  rewrite !(glued_array_cells sample_arrays canvas Hglue) by lia.
  split; vm_compute; reflexivity.
Defined.

(** ** §4.5: crops that never see a fetched tile *)

(** A crop is all zero when the canvas rows it is cut from lie in
    quadrants for which the dict has no entry. *)
Lemma crop_zero (arrays : gmap string (option bitmap)) canvas (Q : nat → Prop)
    y0 y1 x0 x1 :
  glued_array arrays = Ok canvas →
  (∀ r c, Q r → arrays !! quadrant_key r c = None) →
  (∀ row, row ∈ Bm.py_slice y0 y1 canvas → ∃ r, canvas !! r = Some row ∧ Q r) →
  Forall (Forall (λ x, x = Num 0)) (Bm.slice2 y0 y1 x0 x1 canvas).
Proof.
  intros Hglue Hkeys Hrows. unfold Bm.slice2.
  apply Forall_fmap, Forall_forall. intros row Hrow. simpl.
  destruct (Hrows row Hrow) as (r & Hr & HQ).
  apply Forall_forall. intros x Hx. apply py_slice_elem in Hx.
  apply list_elem_of_lookup in Hx as [c Hc].
  assert (Hget : Bm.get canvas r c = Some x).
  { unfold Bm.get. by rewrite Hr. }
  assert (Hshape : shaped 1024 2048 canvas).
  { unfold glued_array in Hglue. cbv zeta in Hglue.
    destruct (Bm.set_block 0 512 0 1024 _ _) as [a1|] eqn:H1; [|done].
    destruct (Bm.set_block 512 1024 1024 2048 _ _) as [a2|] eqn:H2; [|done].
    destruct (Bm.set_block 512 1024 0 1024 _ _) as [a3|] eqn:H3; [|done].
    pose proof (shaped_zeros 1024 2048) as S0.
    apply (set_block_spec 1024 2048) in H1 as [S1 _]; [|done|lia|lia].
    apply (set_block_spec 1024 2048) in H2 as [S2 _]; [|done|lia|lia].
    apply (set_block_spec 1024 2048) in H3 as [S3 _]; [|done|lia|lia].
    by apply (set_block_spec 1024 2048) in Hglue as [S4 _]; [|done|lia|lia]. }
  assert (r < 1024)%nat.
  { destruct Hshape as [<- _]. by eapply lookup_lt_Some. }
  assert (c < 2048)%nat.
  { rewrite <- (shaped_row 1024 2048 canvas r row Hshape Hr).
    by eapply lookup_lt_Some. }
  rewrite (glued_array_get arrays canvas Hglue) in Hget by done.
  unfold quadrant_cell in Hget. rewrite (Hkeys r c HQ) in Hget. congruence.
Qed.

Ltac no_such_key H :=
  apply elem_of_list_to_set in H; simpl in H;
  repeat (apply elem_of_cons in H as [H|H]; [discriminate H|]);
  by apply elem_of_nil in H.

(** X17: for an observation dated on or before 2008-01-18 the vertical
    label is "middle", and no tile fetched under a "middle" key is ever
    placed on the canvas: whatever the archive holds and whatever the
    window, every cell of the bitmap [_get_pixel_map] returns is 0. *)
Theorem get_pixel_map_before_cutoff net date pix_type detector
    (y_window x_window : Z * Z) w crop w' :
  on_or_before date (Datetime 2008 1 18) →
  _get_pixel_map net date pix_type detector y_window x_window w = Ok (crop, w') →
  Forall (Forall (λ x, x = Num 0)) crop.
Proof.
  intros Hdate. apply datetime_leb_spec in Hdate.
  unfold _get_pixel_map. cbv zeta. unfold bind at 1.
  unfold _calculate_detectors. rewrite Hdate. simpl fst. simpl snd.
  destruct (_download_calibration_data _ _ _ _ _ _ w) as [[arrays w1]|] eqn:Hdl;
    [|done].
  unfold bind at 1. unfold lift.
  destruct (glued_array arrays) as [canvas|] eqn:Hglue; [|done].
  unfold ret. intros [= <- <-].
  apply download_keys in Hdl.
  apply (crop_zero arrays canvas (λ _, True)); [done| |].
  - intros r c _. apply not_elem_of_dom. rewrite Hdl. clear Hdl. intros Hin.
    unfold quadrant_key in Hin.
    destruct (x_window.1 mod 2048 >=? 1024);
      [|destruct (x_window.1 mod 2048 + (x_window.2 - x_window.1) <? 1024)];
      repeat (case_decide; try congruence);
      destruct (r <? 512)%nat, (c <? 1024)%nat; no_such_key Hin.
  - intros row Hrow. apply py_slice_elem in Hrow.
    apply list_elem_of_lookup in Hrow as [r Hr]. by exists r.
Qed.

Lemma get_pixel_map_before_cutoff_witness :
  ∃ crop w',
    _get_pixel_map dead_net (Datetime 2007 6 1) "hp" "a" (0, 2) (0, 3) fresh_world
      = Ok (crop, w') ∧
    Forall (Forall (λ x, x = Num 0)) crop.
Proof.
  eexists _, _. split; [vm_compute; reflexivity|].
  eapply (get_pixel_map_before_cutoff dead_net (Datetime 2007 6 1) "hp" "a"
            (0, 2) (0, 3) fresh_world).
  - apply datetime_leb_spec. vm_compute. reflexivity.
  - vm_compute. reflexivity.
Defined.

(** X18: for an observation after 2008-01-18 whose Y window lies inside
    one half of the detector (it starts at row 512 or above, or ends at row
    512 or below), the tiles are fetched under the label of that half but
    placed in the rows of the other half, which the crop does not read:
    every cell of the bitmap [_get_pixel_map] returns is 0, whatever the
    archive holds. *)
Theorem get_pixel_map_half_window net date pix_type detector
    (y_window x_window : Z * Z) w crop w' :
  ¬ on_or_before date (Datetime 2008 1 18) →
  0 ≤ y_window.1 ≤ y_window.2 →
  512 ≤ y_window.1 ∨ y_window.2 ≤ 512 →
  _get_pixel_map net date pix_type detector y_window x_window w = Ok (crop, w') →
  Forall (Forall (λ x, x = Num 0)) crop.
Proof.
  intros Hdate Hy Hhalf.
  assert (Hleb : datetime_leb date (Datetime 2008 1 18) = false).
  { destruct (datetime_leb date (Datetime 2008 1 18)) eqn:Hd; [|done].
    by apply datetime_leb_spec in Hd. }
  unfold _get_pixel_map. cbv zeta. unfold bind at 1.
  unfold _calculate_detectors. rewrite Hleb. simpl fst. simpl snd.
  destruct (_download_calibration_data _ _ _ _ _ _ w) as [[arrays w1]|] eqn:Hdl;
    [|done].
  unfold bind at 1. unfold lift.
  destruct (glued_array arrays) as [canvas|] eqn:Hglue; [|done].
  unfold ret. intros [= <- <-].
  apply download_keys in Hdl.
  destruct (y_window.1 >=? 512) eqn:Htop.
  - apply (crop_zero arrays canvas (λ r, 512 ≤ r)%nat); [done| |].
    + intros r c Hr. apply not_elem_of_dom. rewrite Hdl. clear Hdl. intros Hin.
      unfold quadrant_key in Hin.
      rewrite (proj2 (Nat.ltb_ge r 512)) in Hin by done.
      destruct (x_window.1 mod 2048 >=? 1024);
        [|destruct (x_window.1 mod 2048 + (x_window.2 - x_window.1) <? 1024)];
        repeat (case_decide; try congruence);
        destruct (c <? 1024)%nat; no_such_key Hin.
    + intros row Hrow.
      apply py_slice_elem_index in Hrow as (r & Hr & Hi); [|lia..].
      exists r. split; [done|]. lia.
  - assert (Hbot : (y_window.1 + (y_window.2 - y_window.1) <=? 512) = true).
    { apply Z.leb_le. lia. }
    rewrite Hbot in Hdl.
    apply (crop_zero arrays canvas (λ r, r < 512)%nat); [done| |].
    + intros r c Hr. apply not_elem_of_dom. rewrite Hdl. clear Hdl. intros Hin.
      unfold quadrant_key in Hin.
      rewrite (proj2 (Nat.ltb_lt r 512)) in Hin by done.
      destruct (x_window.1 mod 2048 >=? 1024);
        [|destruct (x_window.1 mod 2048 + (x_window.2 - x_window.1) <? 1024)];
        repeat (case_decide; try congruence);
        destruct (c <? 1024)%nat; no_such_key Hin.
    + intros row Hrow.
      apply py_slice_elem_index in Hrow as (r & Hr & Hi); [|lia..].
      exists r. split; [done|]. lia.
Qed.

Lemma get_pixel_map_half_window_witness :
  returns (_get_pixel_map sample_net (Datetime 2015 1 1) "hp" "a" (0, 512) (0, 1024))
    fresh_world (λ crop, Forall (Forall (λ x, x = Num 0)) crop).
Proof.
  unfold returns.
  destruct (_get_pixel_map sample_net (Datetime 2015 1 1) "hp" "a" (0, 512) (0, 1024)
              fresh_world) as [[crop w']|] eqn:Hrun.
  - eapply (get_pixel_map_half_window sample_net (Datetime 2015 1 1) "hp" "a"
              (0, 512) (0, 1024) fresh_world crop w'); [| | |exact Hrun].
    + rewrite <- datetime_leb_spec. vm_compute. discriminate.
    + simpl. lia.
    + right. simpl. lia.
  - exfalso. revert Hrun.
    assert (Hok : returns (_get_pixel_map sample_net (Datetime 2015 1 1) "hp" "a"
                             (0, 512) (0, 1024)) fresh_world (λ _, True))
      by (vm_compute; exact I).
    unfold returns in Hok. intros Hrun. by rewrite Hrun in Hok.
Defined.

(** ** §4.4: the memo key and the date *)

Lemma string_app_cons x (a b : string) : String x a +:+ b = String x (a +:+ b).
Proof. reflexivity. Qed.

Lemma string_app_nil (b : string) : "" +:+ b = b.
Proof. reflexivity. Qed.

Lemma string_app_assoc (a b c : string) : (a +:+ b) +:+ c = a +:+ (b +:+ c).
Proof.
  induction a as [|x a IH]; [by rewrite !string_app_nil|].
  by rewrite !string_app_cons, IH.
Qed.

Lemma string_app_length (a b : string) :
  String.length (a +:+ b) = (String.length a + String.length b)%nat.
Proof.
  induction a as [|x a IH]; [by rewrite string_app_nil|].
  rewrite string_app_cons. simpl. by rewrite IH.
Qed.

Lemma string_app_split (a1 a2 b1 b2 : string) :
  String.length a1 = String.length a2 →
  a1 +:+ b1 = a2 +:+ b2 → a1 = a2 ∧ b1 = b2.
Proof.
  revert a2. induction a1 as [|x a1 IH]; intros [|y a2] Hlen Heq;
    rewrite ?string_app_nil, ?string_app_cons in Heq; simpl in Hlen; try done.
  injection Heq as -> Heq. injection Hlen as Hlen.
  destruct (IH a2 Hlen Heq) as [-> ->]. done.
Qed.

Lemma zpad_checked w bound n :
  forallb (zpad_round_trip w) (seqZ 0 bound) = true →
  0 ≤ n < bound →
  String.length (zpad w n) = w ∧ parse_decimal (zpad w n) = n.
Proof.
  intros Hall Hn. rewrite forallb_forall in Hall.
  specialize (Hall n). unfold zpad_round_trip in Hall.
  rewrite andb_true_iff, Nat.eqb_eq, Z.eqb_eq in Hall. apply Hall.
  apply list_elem_of_In, elem_of_seqZ. lia.
Qed.

Lemma zpad4_year n :
  0 ≤ n < 10000 → String.length (zpad 4 n) = 4%nat ∧ parse_decimal (zpad 4 n) = n.
Proof. apply zpad_checked. vm_cast_no_check (eq_refl true). Qed.

Lemma zpad2_field n :
  0 ≤ n < 100 → String.length (zpad 2 n) = 2%nat ∧ parse_decimal (zpad 2 n) = n.
Proof. apply zpad_checked. vm_cast_no_check (eq_refl true). Qed.

Lemma strftime_Ymd_inj d1 d2 :
  0 ≤ year d1 < 10000 → 0 ≤ month d1 < 100 → 0 ≤ day d1 < 100 →
  0 ≤ year d2 < 10000 → 0 ≤ month d2 < 100 → 0 ≤ day d2 < 100 →
  strftime_Ymd d1 = strftime_Ymd d2 → d1 = d2.
Proof.
  intros Hy1 Hm1 Hd1 Hy2 Hm2 Hd2. unfold strftime_Ymd. intros Heq.
  destruct (zpad4_year _ Hy1) as [Ly1 Py1], (zpad4_year _ Hy2) as [Ly2 Py2].
  destruct (zpad2_field _ Hm1) as [Lm1 Pm1], (zpad2_field _ Hm2) as [Lm2 Pm2].
  destruct (zpad2_field _ Hd1) as [Ld1 Pd1], (zpad2_field _ Hd2) as [Ld2 Pd2].
  apply string_app_split in Heq as [Hy Heq]; [|congruence].
  apply (string_app_split "-" "-") in Heq as [_ Heq]; [|done].
  apply string_app_split in Heq as [Hm Heq]; [|congruence].
  apply (string_app_split "-" "-") in Heq as [_ Hd]; [|done].
  destruct d1 as [y1 m1 dd1], d2 as [y2 m2 dd2]. simpl in *.
  f_equal; congruence.
Qed.

Lemma strftime_Ymd_length d :
  0 ≤ year d < 10000 → 0 ≤ month d < 100 → 0 ≤ day d < 100 →
  String.length (strftime_Ymd d) = 10%nat.
Proof.
  intros Hy Hm Hd. unfold strftime_Ymd.
  destruct (zpad4_year _ Hy) as [Ly _], (zpad2_field _ Hm) as [Lm _].
  destruct (zpad2_field _ Hd) as [Ld _].
  rewrite !string_app_length, Ly, Lm, Ld. done.
Qed.

Lemma construct_url_inj d1 d2 pix_type detector top_bot left_right :
  valid_date d1 → valid_date d2 →
  0 ≤ year d1 ≤ 9999 → 0 ≤ year d2 ≤ 9999 →
  _construct_hot_warm_pix_url d1 pix_type detector top_bot left_right =
  _construct_hot_warm_pix_url d2 pix_type detector top_bot left_right →
  d1 = d2.
Proof.
  intros [Hm1 Hd1] [Hm2 Hd2] Hy1 Hy2.
  assert (Hb : ∀ y m, 1 ≤ m ≤ 12 → days_in_month y m ≤ 31).
  { intros y m Hm. unfold days_in_month.
    assert (H : m = 1 ∨ m = 2 ∨ m = 3 ∨ m = 4 ∨ m = 5 ∨ m = 6 ∨ m = 7 ∨ m = 8 ∨
                m = 9 ∨ m = 10 ∨ m = 11 ∨ m = 12) by lia.
    repeat (destruct H as [H|H]); rewrite H; simpl; destruct (is_leap y); simpl; lia. }
  pose proof (Hb (year d1) (month d1) Hm1). pose proof (Hb (year d2) (month d2) Hm2).
  unfold _construct_hot_warm_pix_url. cbv zeta. intros Heq.
  apply strftime_Ymd_inj; try lia.
  assert (L1 := strftime_Ymd_length d1). assert (L2 := strftime_Ymd_length d2).
  destruct (decide (pix_type = "wp")), (decide (detector ≠ "middle"));
    rewrite !string_app_assoc in Heq;
    do 3 apply String.app_inj in Heq;
    apply string_app_split in Heq as [Heq _]; (done || (rewrite L1, L2 by lia; done)).
Qed.

(** X19: the memo key tells dates apart: for two different dates with
    years 1900 to 9999 (the years [strftime] of the source's interpreter
    accepts, written on four digits) and the same defect type, detector and
    labels, [_construct_hot_warm_pix_url] gives two different URLs, so a
    tile cached for one requested date is never returned for another. *)
Theorem construct_url_dates_differ d1 d2 pix_type detector top_bot left_right :
  valid_date d1 → valid_date d2 →
  1900 ≤ year d1 ≤ 9999 → 1900 ≤ year d2 ≤ 9999 →
  d1 ≠ d2 →
  _construct_hot_warm_pix_url d1 pix_type detector top_bot left_right ≠
  _construct_hot_warm_pix_url d2 pix_type detector top_bot left_right.
Proof.
  intros Hv1 Hv2 Hy1 Hy2 Hne Heq. apply Hne.
  eapply construct_url_inj; [exact Hv1|exact Hv2|lia|lia|exact Heq].
Qed.

Lemma construct_url_dates_differ_witness :
  _construct_hot_warm_pix_url (Datetime 2015 1 5) "wp" "b" "top" "left" ≠
  _construct_hot_warm_pix_url (Datetime 2015 11 5) "wp" "b" "top" "left".
Proof.
  apply construct_url_dates_differ.
  - unfold valid_date, days_in_month. simpl. lia.
  - unfold valid_date, days_in_month. simpl. lia.
  - simpl. lia.
  - simpl. lia.
  - intros [=].
Defined.

(** ** §4.6: the pixel-defect stage *)

Section monad_inversion.
Context {S A : Type}.

Lemma lift_ok (r : res A) (s s' : S) a :
  lift r s = Ok (a, s') → r = Ok a ∧ s' = s.
Proof. unfold lift. destruct r; intros [=]; by subst. Qed.
End monad_inversion.

Lemma on_world_ok {A} (m : M world A) (s s' : heap * world) a :
  on_world m s = Ok (a, s') → ∃ w', m s.2 = Ok (a, w') ∧ s' = (s.1, w').
Proof.
  unfold on_world. destruct (m s.2) as [[a0 w']|]; intros [=]; subst. eauto.
Qed.

Lemma on_heap_ok {A} (m : M heap A) (s s' : heap * world) a :
  on_heap m s = Ok (a, s') → ∃ h', m s.1 = Ok (a, h') ∧ s' = (h', s.2).
Proof.
  unfold on_heap. destruct (m s.1) as [[a0 h']|]; intros [=]; subst. eauto.
Qed.

Section calibrate.
Variable strptime_Ymd : string → res datetime.
Variable lower : string → string.
Variables (net : archive) (meta : header).

(** One iteration of the loop that returns has written one array, the
    record's error array, and nothing else in the store. *)
Lemma calibrate_step r rs (s s' : heap * world) :
  _calibrate_pixels strptime_Ymd lower net meta (r :: rs) s = Ok (tt, s') →
  ∃ s1 e',
    s1.1 = <[ch_err r := e']> s.1 ∧
    _calibrate_pixels strptime_Ymd lower net meta rs s1 = Ok (tt, s').
Proof.
  unfold _calibrate_pixels. simpl for_each. unfold bind at 1.
  match goal with
  | |- context [match ?body s with _ => _ end] =>
      destruct (body s) as [[[] s1]|] eqn:Hbody; [|done]
  end.
  intros Hrest. cbv beta zeta in Hbody.
  repeat match type of Hbody with
  | bind (lift _) _ _ = _ =>
      unfold bind at 1 in Hbody;
      let Hl := fresh "Hl" in
      match type of Hbody with
      | match ?m ?st with _ => _ end = _ =>
          destruct (m st) as [[? ?]|] eqn:Hl; [|done];
          apply lift_ok in Hl as [_ ->]
      end
  | bind (on_world _) _ _ = _ =>
      unfold bind at 1 in Hbody;
      let Hl := fresh "Hw" in
      match type of Hbody with
      | match ?m ?st with _ => _ end = _ =>
          destruct (m st) as [[? ?]|] eqn:Hl; [|done];
          apply on_world_ok in Hl as (? & _ & ->)
      end
  | bind (on_heap _) _ _ = _ =>
      unfold bind at 1 in Hbody;
      let Hl := fresh "Hh" in
      match type of Hbody with
      | match ?m ?st with _ => _ end = _ =>
          destruct (m st) as [[? ?]|] eqn:Hl; [|done];
          apply on_heap_ok in Hl as (? & Hl & ->)
      end
  end.
  apply on_heap_ok in Hbody as (h' & Hstore & ->).
  unfold store in Hstore. simpl in *.
  unfold deref in Hh. destruct (s.1 !! ch_err r); [|done].
  simplify_eq. eexists _, _. split; [|exact Hrest]. done.
Qed.

Lemma calibrate_frame rs : ∀ (s s' : heap * world),
  _calibrate_pixels strptime_Ymd lower net meta rs s = Ok (tt, s') →
  ∀ l, l ∉ map ch_err rs → s'.1 !! l = s.1 !! l.
Proof.
  induction rs as [|r rs IH]; intros s s' Hrun l Hl.
  - unfold _calibrate_pixels in Hrun. simpl in Hrun. unfold ret in Hrun.
    by simplify_eq.
  - apply calibrate_step in Hrun as (s1 & e' & Hs1 & Hrest).
    rewrite fmap_cons in Hl. apply not_elem_of_cons in Hl as [Hne Hl].
    rewrite (IH s1 s' Hrest l Hl), Hs1. by rewrite lookup_insert_ne.
Qed.

End calibrate.

(** X20: [_calibrate_pixels] never writes a data array: when it returns,
    every array of the store that is not the error array of one of the
    records is exactly as it was, whatever the header, the archive and the
    state of the fetcher. *)
Theorem calibrate_pixels_frame strptime_Ymd lower net meta rs
    (s s' : heap * world) :
  _calibrate_pixels strptime_Ymd lower net meta rs s = Ok (tt, s') →
  ∀ l, l ∉ map ch_err rs → s'.1 !! l = s.1 !! l.
Proof. apply calibrate_frame. Qed.

(** X21: without a [DATE_OBS] card in the header, [_calibrate_pixels]
    raises [KeyError] for that key at the first record, before anything
    is fetched or written. *)
Theorem calibrate_pixels_missing_date strptime_Ymd lower net meta r rs
    (s : heap * world) :
  str_cards meta !! "DATE_OBS" = None →
  _calibrate_pixels strptime_Ymd lower net meta (r :: rs) s
    = Raise (KeyError "DATE_OBS").
Proof.
  intros Hkey. unfold _calibrate_pixels. simpl for_each.
  unfold bind at 1. unfold bind at 1. unfold lift, text_get. by rewrite Hkey.
Qed.

Lemma calibrate_pixels_missing_date_witness :
  _calibrate_pixels sample_strptime sample_lower dusty_net
    (Header (int_cards sample_header) ∅) [Channel 1 2 1] (defect_heap, fresh_world)
  = Raise (KeyError "DATE_OBS").
Proof.
  apply calibrate_pixels_missing_date. reflexivity.
Defined.

Lemma calibrate_pixels_frame_witness :
  ∃ s' : heap * world,
    _calibrate_pixels sample_strptime sample_lower dusty_net sample_header
      [Channel 1 2 1] (defect_heap, fresh_world) = Ok (tt, s') ∧
    s'.1 !! 1%positive = defect_heap !! 1%positive.
Proof.
  eexists. split; [vm_compute; reflexivity|].
  eapply (calibrate_pixels_frame sample_strptime sample_lower dusty_net
            sample_header [Channel 1 2 1] (defect_heap, fresh_world)).
  - vm_compute. reflexivity.
  - apply (bool_decide_unpack _). vm_compute. exact I.
Defined.

Section masks.
Context {A : Type}.
Implicit Types (m : list (list bool)) (a : list (list A)).

Lemma lookup2_zip (f : bool → A → A) m a i j :
  lookup2 (zip_with (zip_with f) m a) i j =
  match lookup2 m i j, lookup2 a i j with
  | Some b, Some x => Some (f b x)
  | _, _ => None
  end.
Proof.
  unfold lookup2. rewrite lookup_zip_with.
  destruct (m !! i) as [r|], (a !! i) as [u|]; simpl; try done.
  - rewrite lookup_zip_with. by destruct (r !! j), (u !! j).
  - by destruct (r !! j).
Qed.

Lemma zip2_lengths (f : bool → A → A) m a :
  map length m = map length a →
  map length (zip_with (zip_with f) m a) = map length a.
Proof.
  revert a. induction m as [|r m IH]; intros [|u a] Hsh; simpl in *; try done.
  injection Hsh as Hru Hsh. rewrite length_zip_with, IH by done. f_equal. lia.
Qed.

Lemma lookup2_same_shape {B} (b : list (list B)) a i j x :
  map length a = map length b → lookup2 a i j = Some x →
  ∃ y, lookup2 b i j = Some y.
Proof.
  unfold lookup2. intros Hsh Hx.
  destruct (a !! i) as [r|] eqn:Hr; [|done].
  destruct (map_length_lookup a b i r Hsh Hr) as (u & -> & Hlen).
  apply lookup_lt_is_Some. rewrite Hlen. by eapply lookup_lt_Some.
Qed.
End masks.

Lemma equals_one_lookup b i j :
  lookup2 (equals_one b) i j = (λ _, is_defect b i j) <$> Bm.get b i j.
Proof.
  unfold lookup2, equals_one, is_defect, Bm.get.
  change (map ?f ?l) with (f <$> l). rewrite list_lookup_fmap.
  destruct (b !! i) as [r|]; simpl; [|done].
  rewrite list_lookup_fmap. by destruct (r !! j) as [[[| [] |]|]|].
Qed.

Lemma equals_one_lengths b : map length (equals_one b) = map length b.
Proof.
  unfold equals_one. rewrite map_map. apply map_ext. intros r. apply length_map.
Qed.

Lemma mark_slices_ok locations (e : Nd.arr Z) :
  Forall (λ sl, map length sl = map length locations) e →
  mark_slices locations e =
  Ok (map (zip_with (zip_with (λ (b : bool) x, if b then __missing__ else x))
             locations) e).
Proof.
  induction e as [|sl e IH]; intros Hall; [done|].
  apply Forall_cons in Hall as [Hsl Hall]. simpl.
  unfold set_where2. rewrite decide_True by done. by rewrite IH.
Qed.

Lemma bind_lift {S A B} (r : res A) (k : A → M S B) a s :
  r = Ok a → bind (lift r) k s = k a s.
Proof. by intros ->. Qed.

Lemma bind_on_world {A B} (m : M world A) (k : A → M (heap * world) B) a w' s :
  m s.2 = Ok (a, w') → bind (on_world m) k s = k a (s.1, w').
Proof. intros Hm. unfold bind, on_world. by rewrite Hm. Qed.

Lemma bind_on_heap {A B} (m : M heap A) (k : A → M (heap * world) B) a h' s :
  m s.1 = Ok (a, h') → bind (on_heap m) k s = k a (h', s.2).
Proof. intros Hm. unfold bind, on_heap. by rewrite Hm. Qed.

(** X22: for one record whose header cards are present and whose three
    defect maps (hot, warm and dusty, fetched in that order) have the shape
    of every exposure of the error array, [_calibrate_pixels] returns and
    rewrites the error array only: it keeps its shape, and in every
    exposure a pixel becomes [__missing__] when one of the three maps holds
    a 1 there and keeps its value otherwise. *)
Theorem calibrate_pixels_marks strptime_Ymd lower net meta r
    (h : heap) (w w1 w2 w3 : world) date_obs date yws yw tdetx tdetxw twbnd
    (hots warms dusties : bitmap) (e : Nd.arr Z) :
  text_get meta "DATE_OBS" = Ok date_obs →
  strptime_Ymd (String.substring 0 10 date_obs) = Ok date →
  meta_get (int_cards meta) "YWS" = Ok yws →
  meta_get (int_cards meta) "YW" = Ok yw →
  meta_get (int_cards meta) ("TDETX" +:+ str (ch_index r)) = Ok tdetx →
  meta_get (int_cards meta) ("TDETXW" +:+ str (ch_index r)) = Ok tdetxw →
  text_get meta ("TWBND" +:+ str (ch_index r)) = Ok twbnd →
  _get_pixel_map net date "hp" (lower twbnd) (yws, yws + yw)
    (tdetx, tdetx + tdetxw) w = Ok (hots, w1) →
  _get_pixel_map net date "wp" (lower twbnd) (yws, yws + yw)
    (tdetx, tdetx + tdetxw) w1 = Ok (warms, w2) →
  _get_dusty_array net (yws, yws + yw) (tdetx, tdetx + tdetxw) w2
    = Ok (dusties, w3) →
  map length warms = map length hots →
  map length dusties = map length hots →
  h !! ch_err r = Some e →
  Forall (λ x_slice, map length x_slice = map length hots) e →
  ∃ e',
    _calibrate_pixels strptime_Ymd lower net meta [r] (h, w)
      = Ok (tt, (<[ch_err r := e']> h, w3)) ∧
    Nd.shape e' = Nd.shape e ∧
    ∀ k i j v, Nd.get e (k, i, j) = Some v →
      Nd.get e' (k, i, j) =
      Some (if is_defect hots i j || is_defect warms i j || is_defect dusties i j
            then __missing__ else v).
Proof.
  intros Hdate Hparse Hyws Hyw Hx Hxw Hband Hhot Hwarm Hdust Hsw Hsd He Hse.
  set (mark := λ (b : bool) (x : bool), if b then true else x).
  set (locs1 := zip_with (zip_with mark) (equals_one warms) (equals_one hots)).
  set (locs := zip_with (zip_with mark) (equals_one dusties) locs1).
  assert (Hl1 : map length locs1 = map length hots).
  { unfold locs1. rewrite zip2_lengths; rewrite !equals_one_lengths; done. }
  assert (Hl : map length locs = map length hots).
  { unfold locs. rewrite zip2_lengths; rewrite ?equals_one_lengths; congruence. }
  exists (map (zip_with (zip_with (λ (b : bool) x, if b then __missing__ else x))
                 locs) e).
  split; [|split].
  - unfold _calibrate_pixels. simpl for_each. rewrite bind_assoc.
    cbv beta zeta.
    rewrite (bind_lift _ _ _ _ Hdate), bind_assoc.
    rewrite (bind_lift _ _ _ _ Hparse), bind_assoc.
    rewrite (bind_lift _ _ _ _ Hyws), bind_assoc.
    rewrite (bind_lift _ _ _ _ Hyw), bind_assoc.
    rewrite (bind_lift _ _ _ _ Hx), bind_assoc.
    rewrite (bind_lift _ _ _ _ Hxw), bind_assoc.
    rewrite (bind_lift _ _ _ _ Hband), bind_assoc.
    rewrite (bind_on_world _ _ hots w1) by exact Hhot. rewrite bind_assoc.
    rewrite (bind_on_world _ _ warms w2) by exact Hwarm. rewrite bind_assoc.
    rewrite (bind_on_world _ _ dusties w3) by exact Hdust. rewrite bind_assoc.
    simpl fst.
    rewrite (bind_lift _ _ locs1), bind_assoc.
    2:{ unfold set_where2. rewrite decide_True; [done|].
        by rewrite !equals_one_lengths. }
    rewrite (bind_lift _ _ locs), bind_assoc.
    2:{ unfold set_where2. rewrite decide_True; [done|].
        rewrite equals_one_lengths. congruence. }
    rewrite (bind_on_heap _ _ e h).
    2:{ unfold deref. simpl. by rewrite He. }
    rewrite bind_assoc.
    assert (Hfit : Forall (λ sl : list (list Z), map length sl = map length locs) e).
    { eapply Forall_impl; [exact Hse|]. simpl. congruence. }
    rewrite (bind_lift _ _ _ _ (mark_slices_ok locs e Hfit)).
    reflexivity.
  - unfold Nd.shape. rewrite map_map. apply map_ext_Forall.
    eapply Forall_impl; [exact Hse|]. intros sl Hsl. simpl in *.
    apply zip2_lengths. congruence.
  - intros k i j v Hv. unfold Nd.get in *.
    change (map ?f ?l) with (f <$> l). rewrite list_lookup_fmap.
    destruct (e !! k) as [sl|] eqn:Hk; [|done]. simpl.
    assert (Hsl : map length sl = map length hots).
    { eapply Forall_lookup_1 in Hse; [|exact Hk]. exact Hse. }
    change (lookup2 sl i j = Some v) in Hv.
    change (lookup2 (zip_with (zip_with (λ (b : bool) (x : Z),
              if b then __missing__ else x)) locs sl) i j = Some
              (if is_defect hots i j || is_defect warms i j || is_defect dusties i j
               then __missing__ else v)).
    destruct (lookup2_same_shape hots sl i j v Hsl Hv) as (ch & Hch).
    destruct (lookup2_same_shape warms hots i j ch (eq_sym Hsw) Hch) as (cw & Hcw).
    destruct (lookup2_same_shape dusties hots i j ch (eq_sym Hsd) Hch) as (cd & Hcd).
    rewrite lookup2_zip, Hv. unfold locs, locs1.
    rewrite !lookup2_zip, !equals_one_lookup.
    change (Bm.get ?b i j) with (lookup2 b i j).
    rewrite Hch, Hcw, Hcd. simpl. unfold mark.
    by destruct (is_defect hots i j), (is_defect warms i j), (is_defect dusties i j).
Qed.

Lemma calibrate_pixels_marks_witness :
  ∃ e',
    _calibrate_pixels sample_strptime sample_lower dusty_net sample_header
      [Channel 1 2 1] (defect_heap, fresh_world)
      = Ok (tt, (<[2%positive := e']> defect_heap,
                 World ∅ [UrlOpen "http://darts.jaxa.jp/pub/ssw/solarb/eis/data/cal/hp/";
                          UrlOpen "http://darts.jaxa.jp/pub/ssw/solarb/eis/data/cal/wp/";
                          UrlRetrieve "http://darts.jaxa.jp/pub/ssw/solarb/eis/data/cal/dp/dusty_pixels.sav"])) ∧
    Nd.shape e' = Nd.shape [[[0; 0; 0]; [0; 0; 0]]; [[0; 0; 0]; [-100; 0; 0]]] ∧
    ∀ k i j v,
      Nd.get [[[0; 0; 0]; [0; 0; 0]]; [[0; 0; 0]; [-100; 0; 0]]] (k, i, j) = Some v →
      Nd.get e' (k, i, j) =
      Some (if is_defect [[Num 0; Num 0; Num 0]; [Num 0; Num 0; Num 0]] i j
               || is_defect [[Num 0; Num 0; Num 0]; [Num 0; Num 0; Num 0]] i j
               || is_defect [[Num 1; Num 0; Num 0]; [Num 0; Num 0; Num 0]] i j
            then __missing__ else v).
Proof.
  apply (calibrate_pixels_marks sample_strptime sample_lower dusty_net
           sample_header (Channel 1 2 1) defect_heap fresh_world
           (World ∅ [UrlOpen "http://darts.jaxa.jp/pub/ssw/solarb/eis/data/cal/hp/"])
           (World ∅ [UrlOpen "http://darts.jaxa.jp/pub/ssw/solarb/eis/data/cal/hp/";
                     UrlOpen "http://darts.jaxa.jp/pub/ssw/solarb/eis/data/cal/wp/"])
           _ "2015-01-01T10:20:30.000" (Datetime 2015 1 1) 0 2 0 3 "A");
    try (vm_compute; reflexivity).
  repeat constructor.
Defined.
